(** * Estar.py: a shallow embedding and its verified properties

    The program is a single Python module, [Estar.py].  Python [str]
    values are modelled as lists of Unicode code points, the local
    filesystem as finite maps and sets, the network as an oracle indexed
    by the number of requests already issued, and the statements of the
    program as computations in a small state-and-exception monad whose
    state also records the trace of observable effects. *)

From Stdlib Require Import ZArith NArith QArith List Bool Lia String Ascii.
From Stdlib Require Import DecimalString DecimalPos DecimalN Finite.
From stdpp Require Import base gmap list.

Local Open Scope Z_scope.
Local Open Scope list_scope.

(** ** Python strings *)

Module PyStr.

(** A Python [str] is a sequence of code points. *)
Abbreviation pystr := (list N).

(** Decoding of the UTF-8 bytes of a source literal into code points. *)
Fixpoint utf8_decode (bs : list N) : pystr :=
  match bs with
  | [] => []
  | b :: r =>
      if (b <? 128)%N then b :: utf8_decode r
      else if (b <? 224)%N then
        match r with
        | b1 :: r' => ((b - 192) * 64 + (b1 - 128))%N :: utf8_decode r'
        | _ => []
        end
      else if (b <? 240)%N then
        match r with
        | b1 :: b2 :: r' =>
            ((b - 224) * 4096 + (b1 - 128) * 64 + (b2 - 128))%N :: utf8_decode r'
        | _ => []
        end
      else
        match r with
        | b1 :: b2 :: b3 :: r' =>
            ((b - 240) * 262144 + (b1 - 128) * 4096 + (b2 - 128) * 64 + (b3 - 128))%N
              :: utf8_decode r'
        | _ => []
        end
  end.

(** [lit s] is the Python literal written [s] in the source. *)
Definition lit (s : string) : pystr :=
  utf8_decode (map N_of_ascii (list_ascii_of_string s)).

(** [str.startswith]: [d] is a prefix of [s]. *)
Fixpoint startswith (d s : pystr) : bool :=
  match d, s with
  | [], _ => true
  | _ :: _, [] => false
  | x :: d', y :: s' => (x =? y)%N && startswith d' s'
  end.

(** The operator [d in s] on strings. *)
Fixpoint contains (d s : pystr) : bool :=
  match s with
  | [] => startswith d []
  | _ :: s' => startswith d s || contains d s'
  end.

(** [s.split(d)] for a non-empty separator [d] (Python raises
    [ValueError] on an empty one; the program never passes one).  The
    scan goes left to right over non-overlapping occurrences: [skip]
    counts the characters of a matched separator still to be passed
    over, [cur] holds the current piece, newest character first. *)
Fixpoint split_go (d s : pystr) (skip : nat) (cur : pystr) : list pystr :=
  match s with
  | [] => [rev cur]
  | c :: s' =>
      match skip with
      | S k => split_go d s' k cur
      | O =>
          if startswith d s
          then rev cur :: split_go d s' (length d - 1)%nat []
          else split_go d s' O (c :: cur)
      end
  end.

Definition split (d s : pystr) : list pystr := split_go d s O [].

(** [l[0]] on the list returned by [split], which is never empty. *)
Definition item0 (l : list pystr) : pystr := hd [] l.

(** [s.replace(old, new)] for a non-empty [old]: every non-overlapping
    occurrence, scanning from the left, in one pass. *)
Fixpoint replace_go (old new s : pystr) (skip : nat) : pystr :=
  match s with
  | [] => []
  | c :: s' =>
      match skip with
      | S k => replace_go old new s' k
      | O =>
          if startswith old s
          then new ++ replace_go old new s' (length old - 1)%nat
          else c :: replace_go old new s' O
      end
  end.

Definition replace (old new s : pystr) : pystr := replace_go old new s O.

(** [str.isspace] on one character: the code points CPython's
    [_PyUnicode_IsWhitespace] accepts. *)
Definition isspace (c : N) : bool :=
  ((9 <=? c) && (c <=? 13) || (28 <=? c) && (c <=? 32)
   || (c =? 133) || (c =? 160) || (c =? 5760)
   || (8192 <=? c) && (c <=? 8202)
   || (c =? 8232) || (c =? 8233) || (c =? 8239) || (c =? 8287)
   || (c =? 12288))%N.

Fixpoint lstrip (s : pystr) : pystr :=
  match s with
  | [] => []
  | c :: s' => if isspace c then lstrip s' else s
  end.

Definition rstrip (s : pystr) : pystr := rev (lstrip (rev s)).

(** [s.strip()] with no argument. *)
Definition strip (s : pystr) : pystr := rstrip (lstrip s).

(** Truthiness of a string: [bool(s)]. *)
Definition truthy (s : pystr) : bool :=
  match s with [] => false | _ :: _ => true end.

(** [str(n)] for a non-negative integer, and the format spec [03d]. *)
Definition str_of_N (n : N) : pystr :=
  map N_of_ascii (list_ascii_of_string (NilZero.string_of_uint (N.to_uint n))).

Definition zfill (w : nat) (s : pystr) : pystr :=
  repeat 48%N (w - length s) ++ s.

Definition format_03d (z : Z) : pystr :=
  if z <? 0 then 45%N :: zfill 2 (str_of_N (Z.to_N (- z)))
  else zfill 3 (str_of_N (Z.to_N z)).

(** [range(a, b)]. *)
Definition py_range (a b : Z) : list Z :=
  map (fun i => a + Z.of_nat i) (seq 0 (Z.to_nat (b - a))).

End PyStr.
Export PyStr.

(** ** [os.path] on POSIX *)

Module OsPath.

Definition sep : N := 47%N.

Fixpoint after_last_sep (s acc : pystr) : pystr :=
  match s with
  | [] => acc
  | c :: s' => if (c =? sep)%N then after_last_sep s' s' else after_last_sep s' acc
  end.

(** [os.path.basename(p)]: what follows the last slash. *)
Definition basename (p : pystr) : pystr := after_last_sep p p.

(** [os.path.join(a, b)]. *)
Definition join (a b : pystr) : pystr :=
  if startswith [sep] b then b
  else if negb (truthy a) || startswith [sep] (rev a) then a ++ b
  else a ++ sep :: b.

End OsPath.

(** ** Pure helpers of the program *)

(** [sanitize_filename]: the regular expression is a character class,
    so the substitution acts on each character separately. *)
Definition invalid_chars : pystr :=
  [92; 47; 58; 42; 63; 34; 60; 62; 124]%N.

Definition is_invalid_char (c : N) : bool :=
  existsb (N.eqb c) invalid_chars.

Definition sanitize_filename (name : pystr) : pystr :=
  strip (map (fun c => if is_invalid_char c then 95%N else c) name).

(** The literals of [extract_story_title]. *)
Definition MARKER : pystr := Eval cbv in lit "【本文】".
Definition DELIM_PIPE : pystr := Eval cbv in lit "|".
Definition DELIM_WIDE_PIPE : pystr := Eval cbv in lit "｜".
Definition DELIM_SITE : pystr := Eval cbv in lit " - 小説投稿エブリスタ".
Definition DELIM_PAGE : pystr := Eval cbv in lit "ページ".

Definition delimiters : list pystr :=
  [DELIM_PIPE; DELIM_WIDE_PIPE; DELIM_SITE; DELIM_PAGE].

(** One iteration of the [for delimiter in ...] loop. *)
Definition truncate_at (title delimiter : pystr) : pystr :=
  if contains delimiter title
  then strip (item0 (split delimiter title))
  else title.

(** The whole loop: it has no [break], every delimiter gets its turn. *)
Definition truncate_loop (title : pystr) : pystr :=
  fold_left truncate_at delimiters title.

Definition extract_story_title (page_title : pystr) : pystr :=
  let title := strip (replace MARKER [] page_title) in
  truncate_loop title.


(** ** The world the program runs in *)

(** The exceptions the program tells apart: [except
    requests.RequestException] catches the first, [except Exception]
    catches all of them. *)
Inductive exn :=
| RequestException   (* transport failure, timeout, HTTPError *)
| ValueError
| OSError
| ParserError.       (* raised inside the HTML library *)

Definition is_request_exception (e : exn) : bool :=
  match e with RequestException => true | _ => false end.

(** What the program reads from a parsed page.  The HTML library is an
    external collaborator: a document is given by the answers to the
    queries the program makes on it. *)
Record body := {
  body_text : pystr;              (* get_text(separator="\n", strip=True) *)
  body_imgs : list (option pystr) (* img.get('src') of each img, in order *)
}.

Record document := {
  doc_title : option pystr;       (* find('title'), then get_text() *)
  doc_partition : option (option N);
    (* find("span", class_="partition singlePage"); inside, the integer
       captured by re.search(r"/(\d+)ページ", text), when it matches:
       a run of digits, hence not negative *)
  doc_body : option body          (* find("div", class_="mainBody") *)
}.

Record response := {
  resp_status_ok : bool;          (* raise_for_status() does not raise *)
  resp_html : option document;    (* BeautifulSoup(resp.text, ...) *)
  resp_content : list N           (* resp.content *)
}.

Record request := {
  req_url : pystr;
  req_page : option Z             (* params={"page": ...} *)
}.

(** Messages printed on the console, one constructor per [print]. *)
Inductive message :=
| MsgStart (story_id : pystr)
| MsgTotal (total_pages : Z)
| MsgCreated (folder_name : pystr)
| MsgScraping (page total_pages : Z)
| MsgNoBody (page : Z)
| MsgDuplicate (page : Z)
| MsgEmpty (page : Z)
| MsgFound (images_found : Z)
| MsgNetErr (page : Z)
| MsgProcErr (page : Z)
| MsgFinished (story_title : pystr)
| MsgPagesScraped (pages_scraped : Z)
| MsgSaved (folder_name : pystr)
| MsgFatal
| MsgDownloading (filename : pystr)
| MsgImgFailed (img_url : pystr)
| MsgIdError.

(** Observable effects. *)
Inductive event :=
| EvGet (r : request)
| EvMakedirs (p : pystr)
| EvWriteText (p content : pystr)      (* open(p, 'w', encoding='utf-8') *)
| EvWriteBytes (p : pystr) (content : list N)  (* open(p, 'wb') *)
| EvSleep (d : Q)
| EvPrint (m : message).

(** The filesystem: regular files with their contents, directories, and
    the paths at which the operating system refuses to create or open
    for writing (permissions, full disk, ...). *)
Record filesystem := {
  fs_files : gmap (list N) (list N);
  fs_dirs : gset (list N);
  fs_deny : list N -> bool
}.

(** The network answers a request depending on how many requests were
    issued before it; [None] is a transport failure or a timeout. *)
Record world := {
  w_fs : filesystem;
  w_net : nat -> request -> option response;
  w_clock : nat;                  (* requests issued so far *)
  w_trace : list event            (* newest first *)
}.

Definition emit (e : event) (w : world) : world :=
  {| w_fs := w_fs w; w_net := w_net w; w_clock := w_clock w;
     w_trace := e :: w_trace w |}.

Definition tick (w : world) : world :=
  {| w_fs := w_fs w; w_net := w_net w; w_clock := S (w_clock w);
     w_trace := w_trace w |}.

Definition set_fs (fs : filesystem) (w : world) : world :=
  {| w_fs := fs; w_net := w_net w; w_clock := w_clock w;
     w_trace := w_trace w |}.

(** ** The monad of statements: state and exceptions *)

Inductive result (A : Type) :=
| Val (a : A)
| Raise (e : exn).
Arguments Val {A} a.
Arguments Raise {A} e.

Definition M (A : Type) : Type := world -> result A * world.

Definition ret {A} (a : A) : M A := fun w => (Val a, w).

Definition raise {A} (e : exn) : M A := fun w => (Raise e, w).

Definition bind {A B} (m : M A) (k : A -> M B) : M B :=
  fun w =>
    match m w with
    | (Val a, w') => k a w'
    | (Raise e, w') => (Raise e, w')
    end.

(** [try: m  except Exception as e: h e]; a handler that does not
    apply re-raises. *)
Definition try_except {A} (m : M A) (h : exn -> M A) : M A :=
  fun w =>
    match m w with
    | (Val a, w') => (Val a, w')
    | (Raise e, w') => h e w'
    end.

Declare Scope py_scope.
Delimit Scope py_scope with py.
Notation "x <- m ;; k" := (bind m (fun x => k))
  (at level 100, m at next level, k at level 200, right associativity) : py_scope.
Notation "m ;; k" := (bind m (fun _ => k))
  (at level 100, k at level 200, right associativity) : py_scope.
Local Open Scope py_scope.

(** ** Library calls *)

Definition print (m : message) : M unit :=
  fun w => (Val tt, emit (EvPrint m) w).

Definition time_sleep (d : Q) : M unit :=
  fun w => (Val tt, emit (EvSleep d) w).

(** [requests.get(url, headers=HEADERS, params=..., timeout=30)]. *)
Definition requests_get (url : pystr) (page : option Z) : M response :=
  fun w =>
    let r := {| req_url := url; req_page := page |} in
    let w' := emit (EvGet r) (tick w) in
    match w_net w (w_clock w) r with
    | Some resp => (Val resp, w')
    | None => (Raise RequestException, w')
    end.

Definition raise_for_status (resp : response) : M unit :=
  if resp_status_ok resp then ret tt else raise RequestException.

Definition BeautifulSoup (resp : response) : M document :=
  match resp_html resp with
  | Some d => ret d
  | None => raise ParserError
  end.

(** Trailing slashes do not change which directory a path names. *)
Fixpoint drop_seps (s : pystr) : pystr :=
  match s with
  | [] => []
  | c :: s' => if (c =? OsPath.sep)%N then drop_seps s' else s
  end.

Definition rstrip_sep (p : pystr) : pystr := rev (drop_seps (rev p)).

Definition is_dir (fs : filesystem) (p : pystr) : bool :=
  bool_decide (rstrip_sep p ∈ fs_dirs fs).

Definition is_file (fs : filesystem) (p : pystr) : bool :=
  bool_decide (rstrip_sep p = p) && bool_decide (is_Some (fs_files fs !! p)).

(** [os.path.exists(p)]; it never raises. *)
Definition path_exists (fs : filesystem) (p : pystr) : bool :=
  is_dir fs p || is_file fs p.

Definition os_path_exists (p : pystr) : M bool :=
  fun w => (Val (path_exists (w_fs w) p), w).

(** Opening [p] for writing succeeds unless the system refuses or [p]
    names a directory. *)
Definition writable (fs : filesystem) (p : pystr) : bool :=
  negb (fs_deny fs p) && negb (is_dir fs p) && bool_decide (rstrip_sep p = p).

Definition store (fs : filesystem) (p content : list N) : filesystem :=
  {| fs_files := <[p := content]> (fs_files fs);
     fs_dirs := fs_dirs fs; fs_deny := fs_deny fs |}.

(** [with open(p, 'w', encoding='utf-8') as f: f.write(...)]; the
    writes of one [with] block are taken as one. *)
Definition write_text (p content : pystr) : M unit :=
  fun w =>
    if writable (w_fs w) p
    then (Val tt, emit (EvWriteText p content) (set_fs (store (w_fs w) p content) w))
    else (Raise OSError, w).

(** [with open(p, 'wb') as f: f.write(content)]. *)
Definition write_bytes (p : pystr) (content : list N) : M unit :=
  fun w =>
    if writable (w_fs w) p
    then (Val tt, emit (EvWriteBytes p content) (set_fs (store (w_fs w) p content) w))
    else (Raise OSError, w).

(** [os.makedirs(p, exist_ok=True)]. *)
Definition os_makedirs (p : pystr) : M unit :=
  fun w =>
    if fs_deny (w_fs w) p || is_file (w_fs w) p
    then (Raise OSError, w)
    else
      let fs := {| fs_files := fs_files (w_fs w);
                   fs_dirs := {[ rstrip_sep p ]} ∪ fs_dirs (w_fs w);
                   fs_deny := fs_deny (w_fs w) |} in
      (Val tt, emit (EvMakedirs p) (set_fs fs w)).

(** ** The program *)

Definition BASE_URL (story_id : pystr) : pystr :=
  lit "https://estar.jp/novels/" ++ story_id ++ lit "/viewer".

(** [get_total_pages]. *)
Definition get_total_pages (story_id : pystr) : M Z :=
  let url := BASE_URL story_id in
  try_except
    (resp <- requests_get url (Some 1) ;;
     raise_for_status resp ;;
     soup <- BeautifulSoup resp ;;
     match doc_partition soup with
     | None => raise ValueError
     | Some None => raise ValueError
     | Some (Some n) => ret (Z.of_N n)
     end)
    (fun e => if is_request_exception e then raise ValueError else raise e).

(** The [try] block of [download_image]. *)
Definition download_image_try (img_url dest_folder : pystr) : M pystr :=
  let clean_url := item0 (split (lit "?") img_url) in
  let filename := OsPath.basename clean_url in
  let filepath := OsPath.join dest_folder filename in
  found <- os_path_exists filepath ;;
  (if negb found then
     print (MsgDownloading filename) ;;
     resp <- requests_get clean_url None ;;
     raise_for_status resp ;;
     write_bytes filepath (resp_content resp)
   else ret tt) ;;
  ret filename.

Definition failed_placeholder (img_url : pystr) : pystr :=
  lit "[Failed to download: " ++ OsPath.basename img_url ++ lit "]".

(** [download_image]. *)
Definition download_image (img_url dest_folder : pystr) : M pystr :=
  try_except
    (download_image_try img_url dest_folder)
    (fun e =>
       print (MsgImgFailed img_url) ;;
       ret (failed_placeholder img_url)).

(** The local variables the page loop carries from one iteration to
    the next. *)
Record loop_vars := {
  last_text : option pystr;
  pages_scraped : Z
}.

(** The four [break] statements of the loop, named after the condition
    that guards each. *)
Inductive stop_reason :=
| network_error
| no_body
| empty_page
| duplicate_content.

Inductive control :=
| Continue
| Break (r : stop_reason).

(** What the run computes once, before the loop. *)
Record context := {
  story_id : pystr;
  total_pages : Z;
  story_title : pystr;
  folder_name : pystr;
  images_folder : pystr
}.

(** [for img in body.find_all('img'): ...], returning [images_found].
    The replacement of the tag in the tree is not observed afterwards:
    [full_content] was taken before the loop. *)
Fixpoint download_images (imgs : list (option pystr)) (dest : pystr)
    (images_found : Z) : M Z :=
  match imgs with
  | [] => ret images_found
  | src :: rest =>
      match src with
      | Some u =>
          if truthy u
          then download_image u dest ;; download_images rest dest (images_found + 1)
          else download_images rest dest images_found
      | None => download_images rest dest images_found
      end
  end.

Definition str_of_Z (z : Z) : pystr :=
  if z <? 0 then 45%N :: str_of_N (Z.to_N (- z)) else str_of_N (Z.to_N z).

Definition page_path (folder : pystr) (page : Z) : pystr :=
  OsPath.join folder (lit "page_" ++ format_03d page ++ lit ".txt").

Definition page_filename (ctx : context) (page : Z) : pystr :=
  page_path (folder_name ctx) page.

Definition page_artifact (page_title full_content : pystr) : pystr :=
  page_title ++ [10%N] ++ repeat 61%N (length page_title) ++ [10%N; 10%N]
    ++ full_content.

(** The [try] block of one iteration of the page loop.  The two
    assignments to the loop variables come after everything that can
    raise, so the handlers see the variables unchanged. *)
Definition scrape_page_try (ctx : context) (vars : loop_vars) (page : Z)
    : M (control * loop_vars) :=
  resp <- requests_get (BASE_URL (story_id ctx)) (Some page) ;;
  raise_for_status resp ;;
  page_soup <- BeautifulSoup resp ;;
  match doc_body page_soup with
  | None =>
      print (MsgNoBody page) ;;
      ret (Break no_body, vars)
  | Some body =>
      let full_content := body_text body in
      if match last_text vars with
         | Some t => bool_decide (full_content = t)
         | None => false
         end
      then print (MsgDuplicate page) ;; ret (Break duplicate_content, vars)
      else if negb (truthy (strip full_content))
      then print (MsgEmpty page) ;; ret (Break empty_page, vars)
      else
        let page_title :=
          match doc_title page_soup with
          | Some t => extract_story_title (strip t)
          | None => story_title ctx ++ lit " - Page " ++ str_of_Z page
          end in
        images_found <- download_images (body_imgs body) (images_folder ctx) 0 ;;
        (if images_found >? 0 then print (MsgFound images_found) else ret tt) ;;
        write_text (page_filename ctx page) (page_artifact page_title full_content) ;;
        time_sleep (1 # 2) ;;
        ret (Continue,
             {| last_text := Some full_content;
                pages_scraped := pages_scraped vars + 1 |})
  end.

(** One iteration of [for page in range(1, total_pages + 3)]. *)
Definition scrape_page (ctx : context) (vars : loop_vars) (page : Z)
    : M (control * loop_vars) :=
  print (MsgScraping page (total_pages ctx)) ;;
  try_except
    (scrape_page_try ctx vars page)
    (fun e =>
       if is_request_exception e
       then print (MsgNetErr page) ;; ret (Break network_error, vars)
       else print (MsgProcErr page) ;; ret (Continue, vars)).

(** The loop over a list of page numbers; [None] when the list is
    exhausted without a [break]. *)
Fixpoint scrape_pages (ctx : context) (pages : list Z) (vars : loop_vars)
    : M (option stop_reason * loop_vars) :=
  match pages with
  | [] => ret (None, vars)
  | page :: rest =>
      r <- scrape_page ctx vars page ;;
      match fst r with
      | Break why => ret (Some why, snd r)
      | Continue => scrape_pages ctx rest (snd r)
      end
  end.

Definition initial_vars : loop_vars :=
  {| last_text := None; pages_scraped := 0 |}.

(** What [scrape_story] does before the loop, inside its [try]. *)
Definition scrape_setup (sid : pystr) : M context :=
  n <- get_total_pages sid ;;
  print (MsgTotal n) ;;
  resp <- requests_get (BASE_URL sid) (Some 1) ;;
  raise_for_status resp ;;
  soup <- BeautifulSoup resp ;;
  match doc_title soup with
  | None => raise ValueError
  | Some t =>
      let raw_title := strip t in
      let title := extract_story_title raw_title in
      let folder := sanitize_filename title ++ lit " - " ++ sid in
      os_makedirs folder ;;
      let images := OsPath.join folder (lit "images") in
      os_makedirs images ;;
      print (MsgCreated folder) ;;
      ret {| story_id := sid; total_pages := n; story_title := title;
             folder_name := folder; images_folder := images |}
  end.

(** The loop of [scrape_story] and the report that follows it. *)
Definition scrape_loop (ctx : context) : M (option stop_reason * loop_vars) :=
  r <- scrape_pages ctx (py_range 1 (total_pages ctx + 3)) initial_vars ;;
  print (MsgFinished (story_title ctx)) ;;
  print (MsgPagesScraped (pages_scraped (snd r))) ;;
  print (MsgSaved (folder_name ctx)) ;;
  ret r.

(** [scrape_story]. *)
Definition scrape_story (sid : pystr) : M bool :=
  print (MsgStart sid) ;;
  try_except
    (ctx <- scrape_setup sid ;;
     scrape_loop ctx ;;
     ret true)
    (fun e => print MsgFatal ;; ret false).

(** The command line: [args.story_id] and [args.delay]. *)
Record args := {
  arg_story_id : pystr;
  arg_delay : Q
}.

Definition default_delay : Q := 1 # 2.

Section Main.

(** [str.isdigit] on one character is a table of the Unicode database. *)
Variable chr_isdigit : N -> bool.

Definition str_isdigit (s : pystr) : bool :=
  truthy s && forallb chr_isdigit s.

(** The [__main__] block; the value is the exit status. *)
Definition main (a : args) : M Z :=
  if negb (str_isdigit (arg_story_id a))
  then print MsgIdError ;; ret 1
  else
    success <- scrape_story (arg_story_id a) ;;
    ret (if success then 0 else 1).

End Main.

(** ** Observations on a trace *)

(** The observations of one kind, newest first. *)
Definition observe {A} (f : event -> option A) (t : list event) : list A :=
  omap f t.
Arguments observe : simpl never.

(** Paths of the page artifacts written. *)
Definition written (e : event) : option pystr :=
  match e with EvWriteText p _ => Some p | _ => None end.

(** Page numbers requested from the reader endpoint. *)
Definition fetched_page (e : event) : option Z :=
  match e with EvGet r => req_page r | _ => None end.

(** Pages whose processing raised and was skipped. *)
Definition proc_error (e : event) : option Z :=
  match e with EvPrint (MsgProcErr p) => Some p | _ => None end.

Definition slept (e : event) : option Q :=
  match e with EvSleep d => Some d | _ => None end.

(** The count printed by the final report. *)
Definition reported (e : event) : option Z :=
  match e with EvPrint (MsgPagesScraped n) => Some n | _ => None end.

(** The events [download_image] can add to a trace. *)
Definition image_event (e : event) : bool :=
  match e with
  | EvGet r => match req_page r with None => true | Some _ => false end
  | EvWriteBytes _ _ => true
  | EvPrint (MsgDownloading _) => true
  | EvPrint (MsgImgFailed _) => true
  | _ => false
  end.

(** An observation that is blind to image events. *)
Definition page_level {A} (f : event -> option A) : Prop :=
  forall e, image_event e = true -> f e = None.

(** How one iteration of the page loop ends, told by its trace [t']
    against the trace [t] it started from: the artifact was written,
    the page was skipped after an error, or the loop stopped. *)
Inductive page_outcome (ctx : context) (vars : loop_vars) (page : Z)
    (t t' : list event) : control -> loop_vars -> Prop :=
| outcome_written content :
    observe written t' = page_filename ctx page :: observe written t ->
    observe proc_error t' = observe proc_error t ->
    observe slept t' = (1 # 2) :: observe slept t ->
    page_outcome ctx vars page t t' Continue
      {| last_text := Some content; pages_scraped := pages_scraped vars + 1 |}
| outcome_skipped :
    observe written t' = observe written t ->
    observe proc_error t' = page :: observe proc_error t ->
    observe slept t' = observe slept t ->
    page_outcome ctx vars page t t' Continue vars
| outcome_stopped why :
    observe written t' = observe written t ->
    observe proc_error t' = observe proc_error t ->
    observe slept t' = observe slept t ->
    page_outcome ctx vars page t t' (Break why) vars.

(** ** Auxiliary notions for the string lemmas *)

(** The text before the first occurrence of [d], all of [s] when there
    is none. *)
Fixpoint before (d s : pystr) : pystr :=
  match s with
  | [] => []
  | c :: s' => if startswith d s then [] else c :: before d s'
  end.

(** [u] occurs in [t] as a contiguous piece. *)
Definition infix (u t : pystr) : Prop :=
  exists a b, t = a ++ u ++ b.

(** A string that does not begin with white space. *)
Definition no_leading_space (s : pystr) : Prop :=
  match s with [] => True | c :: _ => isspace c = false end.

(** One step of the title loop, written with [before]. *)
Definition cut (d t : pystr) : pystr :=
  if contains d t then strip (before d t) else t.

(** The separator rule as the specification words it: the separators
    are tried in order, the first one present truncates the title, and
    the scan ends there. *)
Fixpoint first_match_wins (ds : list pystr) (title : pystr) : pystr :=
  match ds with
  | [] => title
  | d :: ds' =>
      if contains d title
      then strip (item0 (split d title))
      else first_match_wins ds' title
  end.

Definition extract_story_title_first_match (page_title : pystr) : pystr :=
  first_match_wins delimiters (strip (replace MARKER [] page_title)).

(** The log of a run of the page loop: each page that was neither a
    stop nor the end, with whether its artifact was written. *)
Definition pages_where (b : bool) (log : list (Z * bool)) : list Z :=
  map fst (List.filter (fun x => Bool.eqb (snd x) b) log).

(** What a run of the page loop over [pages] leaves behind, from the
    variables [vars] and the trace [t] to [vars'] and [t']: [log] holds
    the pages gone through without a stop, [rest] the pages from the
    stopping one on. *)
Record loop_summary (ctx : context) (pages : list Z) (vars : loop_vars)
    (t : list event) (stop : option stop_reason) (vars' : loop_vars)
    (t' : list event) (log : list (Z * bool)) (rest : list Z) : Prop := {
  sum_pages : pages = map fst log ++ rest;
  sum_written :
    observe written t' =
    rev (map (page_filename ctx) (pages_where true log)) ++ observe written t;
  sum_errors :
    observe proc_error t' = rev (pages_where false log) ++ observe proc_error t;
  sum_slept :
    observe slept t' =
    repeat (1 # 2) (length (pages_where true log)) ++ observe slept t;
  sum_reported : observe reported t' = observe reported t;
  sum_counter :
    pages_scraped vars' =
    pages_scraped vars + Z.of_nat (length (pages_where true log));
  sum_fetched :
    observe fetched_page t' =
    match stop with
    | None => rev (map fst log) ++ observe fetched_page t
    | Some _ => rev (map fst log ++ firstn 1 rest) ++ observe fetched_page t
    end;
  sum_stop :
    match stop with
    | None => rest = []
    | Some _ => rest <> []
    end
}.

(** What [download_image] returns, read off the world it starts in. *)
Definition resolution (img_url dest_folder : pystr) (w : world) : pystr :=
  let clean_url := item0 (split (lit "?") img_url) in
  let filename := OsPath.basename clean_url in
  let filepath := OsPath.join dest_folder filename in
  if path_exists (w_fs w) filepath then filename
  else
    match w_net w (w_clock w) {| req_url := clean_url; req_page := None |} with
    | Some resp =>
        if resp_status_ok resp && writable (w_fs w) filepath
        then filename
        else failed_placeholder img_url
    | None => failed_placeholder img_url
    end.

(** The request [r], issued now, fails: no answer, or an answer whose
    status makes [raise_for_status] raise. *)
Definition fetch_fails (w : world) (r : request) : bool :=
  match w_net w (w_clock w) r with
  | Some resp => negb (resp_status_ok resp)
  | None => true
  end.

Definition page_request (ctx : context) (page : Z) : request :=
  {| req_url := BASE_URL (story_id ctx); req_page := Some page |}.

(** ** Statements that the program does not satisfy, as worded *)



(** ** Concrete worlds *)

Definition fs_empty : filesystem :=
  {| fs_files := ∅; fs_dirs := ∅; fs_deny := fun _ => false |}.

Definition ascii_isdigit (c : N) : bool := ((48 <=? c) && (c <=? 57))%N.

Definition demo_image : pystr := lit "https://img.estar.jp/a/b.png?w=1".

Definition page_of (content : string) (imgs : list (option pystr)) : response :=
  {| resp_status_ok := true;
     resp_html :=
       Some {| doc_title := Some (lit "【本文】Tale | エブリスタ");
               doc_partition := Some (Some 2%N);
               doc_body := Some {| body_text := lit content; body_imgs := imgs |} |};
     resp_content := [137; 80; 78; 71]%N |}.

(** A story of two pages; the reader echoes the last one beyond. *)
Definition demo_net (k : nat) (r : request) : option response :=
  match req_page r with
  | Some 1 => Some (page_of "one" [Some demo_image])
  | Some _ => Some (page_of "two" [])
  | None => Some (page_of "" [])
  end.

Definition demo_world : world :=
  {| w_fs := fs_empty; w_net := demo_net; w_clock := 0; w_trace := [] |}.


(** A network that never answers. *)
Definition dead_world : world :=
  {| w_fs := fs_empty; w_net := fun _ _ => None; w_clock := 0; w_trace := [] |}.

(** A network that answers two requests and then goes down. *)
Definition flaky_world : world :=
  {| w_fs := fs_empty;
     w_net := fun k r => if (k <? 2)%nat then demo_net k r else None;
     w_clock := 0; w_trace := [] |}.

Definition demo_ctx : context :=
  {| story_id := lit "17"; total_pages := 2; story_title := lit "Tale";
     folder_name := lit "Tale - 17"; images_folder := lit "Tale - 17/images" |}.

Definition demo_args (d : Q) : args :=
  {| arg_story_id := lit "17"; arg_delay := d |}.

Definition title_two_separators : pystr := lit "Story 3ページ|Site".

Definition title_nested_marker : pystr := lit "【本【本文】文】".

(** ** Auxiliary notions for the further properties *)

(** The number a string of ASCII decimal digits denotes. *)
Definition decimal_value (s : pystr) : option N :=
  option_map N.of_uint
    (NilZero.uint_of_string (string_of_list_ascii (map ascii_of_N s))).

(** The substitution [sanitize_filename] applies to one character. *)
Definition sanitize_char (c : N) : N :=
  if is_invalid_char c then 95%N else c.

(** The request for page 1 of a story. *)
Definition first_page_request (sid : pystr) : request :=
  {| req_url := BASE_URL sid; req_page := Some 1 |}.

(** What [get_total_pages] returns, read off the answer to its
    request. *)
Definition page_count_outcome (a : option response) : result Z :=
  match a with
  | None => Raise ValueError
  | Some resp =>
      if resp_status_ok resp then
        match resp_html resp with
        | None => Raise ParserError
        | Some doc =>
            match doc_partition doc with
            | Some (Some n) => Val (Z.of_N n)
            | _ => Raise ValueError
            end
        end
      else Raise ValueError
  end.

(** A reader whose first page lacks the page-count label. *)
Definition unlabelled_world : world :=
  {| w_fs := fs_empty;
     w_net := fun _ _ =>
       Some {| resp_status_ok := true;
               resp_html := Some {| doc_title := Some (lit "Tale");
                                    doc_partition := None;
                                    doc_body := None |};
               resp_content := [] |};
     w_clock := 0; w_trace := [] |}.

(** The content kept for the duplicate test is never blank. *)
Definition last_text_not_blank (vars : loop_vars) : Prop :=
  match last_text vars with
  | Some t => strip t <> []
  | None => True
  end.

(** The title line of the artifact of a page. *)
Definition page_title_of (ctx : context) (doc : document) (page : Z) : pystr :=
  match doc_title doc with
  | Some t => extract_story_title (strip t)
  | None => story_title ctx ++ lit " - Page " ++ str_of_Z page
  end.

(** A page whose content block is missing, and one whose content is
    white space only. *)
Definition bodiless_response : response :=
  {| resp_status_ok := true;
     resp_html := Some {| doc_title := Some (lit "Tale");
                          doc_partition := None; doc_body := None |};
     resp_content := [] |}.

Definition blank_world : world :=
  {| w_fs := fs_empty;
     w_net := fun _ r =>
       match req_page r with
       | Some 3 => Some (page_of "   " [])
       | Some 4 => Some bodiless_response
       | _ => demo_net 0 r
       end;
     w_clock := 0; w_trace := [] |}.

(** The file [download_image] works on. *)
Definition image_path (img_url dest : pystr) : pystr :=
  OsPath.join dest (OsPath.basename (item0 (split (lit "?") img_url))).








(** A reader whose second page cannot be parsed. *)
Definition garbled_world : world :=
  {| w_fs := fs_empty;
     w_net := fun _ r =>
       match req_page r with
       | Some 2 => Some {| resp_status_ok := true; resp_html := None;
                           resp_content := [] |}
       | _ => demo_net 0 r
       end;
     w_clock := 0; w_trace := [] |}.

(** * Properties *)

(** ** Strings *)

Section StringFacts.

Implicit Types d s t u : pystr.

Lemma startswith_spec d s :
  startswith d s = true <-> exists b, s = d ++ b.
Proof.
  revert s. induction d as [|x d IH]; intros s; simpl.
  - split; [intros _; exists s; reflexivity | reflexivity].
  - destruct s as [|y s]; simpl.
    + split; [discriminate | intros [b Hb]; discriminate].
    + rewrite andb_true_iff, N.eqb_eq, IH. split.
      * intros [-> [b ->]]. exists b. reflexivity.
      * intros [b Hb]. injection Hb as -> ->. split; [reflexivity | exists b; reflexivity].
Qed.

Lemma startswith_app d s v :
  startswith d s = true -> startswith d (s ++ v) = true.
Proof.
  rewrite !startswith_spec. intros [b ->]. exists (b ++ v).
  rewrite app_assoc. reflexivity.
Qed.

Lemma contains_spec d s :
  contains d s = true <-> infix d s.
Proof.
  unfold infix. induction s as [|c s IH]; simpl.
  - rewrite startswith_spec. split.
    + intros [b Hb]. exists [], b. exact Hb.
    + intros [a [b Hab]]. destruct a; simpl in Hab.
      * exists b. exact Hab.
      * discriminate.
  - rewrite orb_true_iff, startswith_spec, IH. split.
    + intros [[b Hb] | [a [b Hab]]].
      * exists [], b. exact Hb.
      * exists (c :: a), b. simpl. rewrite Hab. reflexivity.
    + intros [a [b Hab]]. destruct a as [|x a]; simpl in Hab.
      * left. exists b. exact Hab.
      * right. injection Hab as -> ->. exists a, b. reflexivity.
Qed.

Lemma infix_refl s : infix s s.
Proof. exists [], []. rewrite app_nil_r. reflexivity. Qed.

Lemma infix_trans u s t : infix u s -> infix s t -> infix u t.
Proof.
  intros [a [b ->]] [a' [b' ->]]. exists (a' ++ a), (b ++ b').
  rewrite <- !app_assoc. reflexivity.
Qed.

Lemma absent_infix d u t :
  contains d t = false -> infix u t -> contains d u = false.
Proof.
  intros Hd Hu. destruct (contains d u) eqn:E; [|reflexivity].
  apply contains_spec in E. rewrite <- Hd. symmetry.
  apply contains_spec. eapply infix_trans; eassumption.
Qed.

Lemma before_prefix d s : exists b, s = before d s ++ b.
Proof.
  induction s as [|c s [b IH]]; simpl.
  - exists []. reflexivity.
  - destruct (startswith d (c :: s)).
    + exists (c :: s). reflexivity.
    + exists b. simpl. rewrite <- IH. reflexivity.
Qed.

Lemma infix_before d s : infix (before d s) s.
Proof. destruct (before_prefix d s) as [b Hb]. exists [], b. exact Hb. Qed.

Lemma absent_before d s :
  d <> [] -> contains d (before d s) = false.
Proof.
  intros Hd. induction s as [|c s IH]; simpl.
  - destruct d; [congruence | reflexivity].
  - destruct (startswith d (c :: s)) eqn:E; simpl.
    + destruct d; [congruence | reflexivity].
    + rewrite IH, orb_false_r.
      destruct (before_prefix d s) as [b Hb].
      destruct (startswith d (c :: before d s)) eqn:E'; [|reflexivity].
      apply (startswith_app _ _ b) in E'. simpl in E'.
      rewrite <- Hb in E'. simpl in E. congruence.
Qed.

Lemma item0_split_go d s cur :
  item0 (split_go d s O cur) = rev cur ++ before d s.
Proof.
  revert cur. induction s as [|c s IH]; intros cur.
  - simpl. rewrite app_nil_r. reflexivity.
  - cbn [split_go before]. destruct (startswith d (c :: s)).
    + simpl. rewrite app_nil_r. reflexivity.
    + rewrite IH. simpl. rewrite <- app_assoc. reflexivity.
Qed.

(** [s.split(d)[0]] is the text before the first occurrence of [d]. *)
Lemma item0_split d s : item0 (split d s) = before d s.
Proof. unfold split. rewrite item0_split_go. reflexivity. Qed.

Lemma lstrip_suffix s : exists a, s = a ++ lstrip s.
Proof.
  induction s as [|c s [a IH]]; simpl.
  - exists []. reflexivity.
  - destruct (isspace c).
    + exists (c :: a). simpl. rewrite <- IH. reflexivity.
    + exists []. reflexivity.
Qed.

Lemma rstrip_prefix s : exists b, s = rstrip s ++ b.
Proof.
  unfold rstrip. destruct (lstrip_suffix (rev s)) as [a Ha].
  exists (rev a). rewrite <- rev_app_distr, <- Ha, rev_involutive. reflexivity.
Qed.

Lemma infix_strip s : infix (strip s) s.
Proof.
  unfold strip. destruct (lstrip_suffix s) as [a Ha].
  destruct (rstrip_prefix (lstrip s)) as [b Hb].
  exists a, b. rewrite <- Hb. exact Ha.
Qed.

Lemma lstrip_no_leading s : no_leading_space (lstrip s).
Proof.
  induction s as [|c s IH]; simpl; [exact I|].
  destruct (isspace c) eqn:E; [exact IH | exact E].
Qed.

Lemma lstrip_fixed s : no_leading_space s -> lstrip s = s.
Proof. destruct s as [|c s]; simpl; [reflexivity | intros ->; reflexivity]. Qed.

Lemma rstrip_no_leading s : no_leading_space s -> no_leading_space (rstrip s).
Proof.
  intros H. destruct (rstrip_prefix s) as [b Hb].
  destruct (rstrip s) as [|c r]; [exact I|].
  rewrite Hb in H. exact H.
Qed.

Lemma strip_idempotent s : strip (strip s) = strip s.
Proof.
  unfold strip at 1.
  rewrite (lstrip_fixed (strip s)).
  - unfold strip, rstrip. rewrite rev_involutive.
    rewrite (lstrip_fixed (lstrip _)); [reflexivity | apply lstrip_no_leading].
  - unfold strip. apply rstrip_no_leading, lstrip_no_leading.
Qed.

Lemma replace_absent old new s :
  contains old s = false -> replace old new s = s.
Proof.
  unfold replace. induction s as [|c s IH]; [reflexivity|].
  cbn [contains replace_go]. intros H. apply orb_false_iff in H as [H1 H2].
  rewrite H1, (IH H2). reflexivity.
Qed.

(** The loop step of the program is [cut]. *)
Lemma truncate_at_cut t d : truncate_at t d = cut d t.
Proof. unfold truncate_at, cut. rewrite item0_split. reflexivity. Qed.

Lemma infix_cut d t : infix (cut d t) t.
Proof.
  unfold cut. destruct (contains d t).
  - eapply infix_trans; [apply infix_strip | apply infix_before].
  - apply infix_refl.
Qed.

Lemma absent_cut d t : d <> [] -> contains d (cut d t) = false.
Proof.
  intros Hd. unfold cut. destruct (contains d t) eqn:E; [|exact E].
  eapply absent_infix; [apply (absent_before d t Hd) | apply infix_strip].
Qed.

Lemma cut_absent d t : contains d t = false -> cut d t = t.
Proof. unfold cut. intros ->. reflexivity. Qed.

Lemma cut_stripped d t : strip t = t -> strip (cut d t) = cut d t.
Proof.
  intros H. unfold cut. destruct (contains d t); [apply strip_idempotent | exact H].
Qed.

Lemma infix_truncate_fold ds t : infix (fold_left truncate_at ds t) t.
Proof.
  revert t. induction ds as [|d ds IH]; intros t; simpl.
  - apply infix_refl.
  - eapply infix_trans; [apply IH|]. rewrite truncate_at_cut. apply infix_cut.
Qed.

Lemma absent_truncate_fold ds t :
  Forall (fun d => d <> []) ds ->
  Forall (fun d => contains d (fold_left truncate_at ds t) = false) ds.
Proof.
  intros Hne. revert t. induction Hne as [|d ds Hd Hne IH]; intros t; simpl.
  - constructor.
  - constructor; [|apply IH].
    eapply absent_infix; [|apply infix_truncate_fold].
    rewrite truncate_at_cut. apply absent_cut, Hd.
Qed.

Lemma truncate_fold_absent ds t :
  Forall (fun d => contains d t = false) ds -> fold_left truncate_at ds t = t.
Proof.
  induction 1 as [|d ds Hd _ IH]; simpl; [reflexivity|].
  rewrite truncate_at_cut, (cut_absent _ _ Hd). exact IH.
Qed.

Lemma truncate_fold_stripped ds t :
  strip t = t -> strip (fold_left truncate_at ds t) = fold_left truncate_at ds t.
Proof.
  revert t. induction ds as [|d ds IH]; intros t H; simpl; [exact H|].
  apply IH. rewrite truncate_at_cut. apply cut_stripped, H.
Qed.

Lemma delimiters_nonempty : Forall (fun d => d <> []) delimiters.
Proof. repeat constructor; discriminate. Qed.

Lemma absent_extract s :
  Forall (fun d => contains d (extract_story_title s) = false) delimiters.
Proof. apply absent_truncate_fold, delimiters_nonempty. Qed.

Lemma extract_stripped s : strip (extract_story_title s) = extract_story_title s.
Proof. apply truncate_fold_stripped, strip_idempotent. Qed.

(** The separator loop alone is idempotent on every string. *)
Lemma truncate_loop_idempotent t :
  truncate_loop (truncate_loop t) = truncate_loop t.
Proof.
  apply truncate_fold_absent, absent_truncate_fold, delimiters_nonempty.
Qed.

End StringFacts.

(** ** Image resolution *)

Section ImageFacts.

Arguments observe : simpl never.

Lemma observe_cons {A} (f : event -> option A) e t :
  observe f (e :: t) =
  match f e with Some a => a :: observe f t | None => observe f t end.
Proof. reflexivity. Qed.

Lemma observe_cons_none {A} (f : event -> option A) e t :
  f e = None -> observe f (e :: t) = observe f t.
Proof. unfold observe. simpl. intros ->. reflexivity. Qed.


Lemma download_image_value img_url dest w :
  fst (download_image img_url dest w) = Val (resolution img_url dest w).
Proof.
  unfold download_image, download_image_try, resolution, try_except, bind,
    os_path_exists, requests_get, raise_for_status, write_bytes, print, ret, raise.
  destruct (path_exists _ _); simpl; [reflexivity|].
  destruct (w_net w _ _) as [resp|]; simpl; [|reflexivity].
  destruct (resp_status_ok resp); simpl; [|reflexivity].
  destruct (writable _ _); reflexivity.
Qed.

Lemma download_image_frame {A} (f : event -> option A) img_url dest w :
  page_level f ->
  observe f (w_trace (snd (download_image img_url dest w))) = observe f (w_trace w).
Proof.
  intros Hf.
  unfold download_image, download_image_try, try_except, bind,
    os_path_exists, requests_get, raise_for_status, write_bytes, print, ret, raise.
  destruct (path_exists _ _); simpl; [reflexivity|].
  destruct (w_net w _ _) as [resp|]; simpl.
  - destruct (resp_status_ok resp); simpl.
    + destruct (writable _ _); simpl;
        rewrite ?observe_cons_none by (apply Hf; reflexivity); reflexivity.
    + rewrite !observe_cons_none by (apply Hf; reflexivity). reflexivity.
  - rewrite !observe_cons_none by (apply Hf; reflexivity). reflexivity.
Qed.

Lemma download_images_total imgs dest n w :
  exists k w', download_images imgs dest n w = (Val k, w').
Proof.
  revert n w. induction imgs as [|src imgs IH]; intros n w; simpl.
  - exists n, w. reflexivity.
  - destruct src as [u|]; [|apply IH].
    destruct (truthy u); [|apply IH].
    unfold bind.
    pose proof (download_image_value u dest w) as Hv.
    destruct (download_image u dest w) as [r w1]. simpl in Hv. subst r.
    apply IH.
Qed.

Lemma download_images_frame {A} (f : event -> option A) imgs dest n w k w' :
  page_level f ->
  download_images imgs dest n w = (Val k, w') ->
  observe f (w_trace w') = observe f (w_trace w).
Proof.
  intros Hf. revert n w. induction imgs as [|src imgs IH]; intros n w; simpl.
  - unfold ret. intros [= _ ->]. reflexivity.
  - destruct src as [u|]; [|apply IH].
    destruct (truthy u); [|apply IH].
    unfold bind.
    pose proof (download_image_value u dest w) as Hv.
    pose proof (download_image_frame f u dest w Hf) as Ht.
    destruct (download_image u dest w) as [r w1]. simpl in Hv, Ht. subst r.
    intros H. rewrite (IH _ _ H). exact Ht.
Qed.

End ImageFacts.

(** ** One page *)

Ltac obs_in H := simpl in H; repeat (rewrite observe_cons in H; simpl in H).
Ltac obs := simpl; repeat (rewrite observe_cons; simpl).

Ltac run_page :=
  unfold scrape_page, scrape_page_try, try_except, bind, print, requests_get,
    raise_for_status, BeautifulSoup, write_text, time_sleep, ret, raise;
  simpl.

Section PageFacts.

Lemma page_level_written : page_level written.
Proof. intros [[? []]| | | | |[]]; simpl; congruence. Qed.

Lemma page_level_fetched : page_level fetched_page.
Proof. intros [[? []]| | | | |[]]; simpl; congruence. Qed.

Lemma page_level_proc_error : page_level proc_error.
Proof. intros [[? []]| | | | |[]]; simpl; congruence. Qed.

Lemma page_level_slept : page_level slept.
Proof. intros [[? []]| | | | |[]]; simpl; congruence. Qed.

Lemma page_level_reported : page_level reported.
Proof. intros [[? []]| | | | |[]]; simpl; congruence. Qed.

Lemma scrape_page_step ctx vars page w :
  exists c vars' w',
    scrape_page ctx vars page w = (Val (c, vars'), w') /\
    observe fetched_page (w_trace w') = page :: observe fetched_page (w_trace w) /\
    observe reported (w_trace w') = observe reported (w_trace w) /\
    page_outcome ctx vars page (w_trace w) (w_trace w') c vars'.
Proof.
  run_page.
  destruct (w_net w (w_clock w) _) as [resp|]; simpl;
    [|do 3 eexists; repeat split; constructor; reflexivity].
  destruct (resp_status_ok resp); simpl;
    [|do 3 eexists; repeat split; constructor; reflexivity].
  destruct (resp_html resp) as [doc|]; simpl;
    [|do 3 eexists; repeat split; constructor; reflexivity].
  destruct (doc_body doc) as [b|]; simpl;
    [|do 3 eexists; repeat split; constructor; reflexivity].
  match goal with |- context [if ?c then _ else _] => destruct c end; simpl;
    [do 3 eexists; repeat split; constructor; reflexivity|].
  destruct (truthy (strip (body_text b))); simpl;
    [|do 3 eexists; repeat split; constructor; reflexivity].
  match goal with
  | |- context [download_images ?i ?d ?n ?w0] =>
      destruct (download_images_total i d n w0) as (k & w2 & Hk);
      pose proof (download_images_frame written _ _ _ _ _ _ page_level_written Hk) as Fw;
      pose proof (download_images_frame fetched_page _ _ _ _ _ _ page_level_fetched Hk) as Ff;
      pose proof (download_images_frame proc_error _ _ _ _ _ _ page_level_proc_error Hk) as Fe;
      pose proof (download_images_frame slept _ _ _ _ _ _ page_level_slept Hk) as Fs;
      pose proof (download_images_frame reported _ _ _ _ _ _ page_level_reported Hk) as Fr;
      rewrite Hk
  end.
  obs_in Fw; obs_in Ff; obs_in Fe; obs_in Fs; obs_in Fr.
  destruct (k >? 0); simpl; destruct (writable _ _); simpl;
    do 3 eexists; (split; [reflexivity|]); obs;
    rewrite ?Fw, ?Ff, ?Fe, ?Fs, ?Fr;
    (split; [reflexivity|]); (split; [reflexivity|]);
    constructor; obs; congruence.
Qed.

End PageFacts.

(** ** The page loop *)

Section LoopFacts.

Lemma repeat_shift {A} (x : A) n t :
  x :: repeat x n ++ t = repeat x n ++ x :: t.
Proof. induction n as [|n IH]; simpl; [reflexivity | rewrite <- IH; reflexivity]. Qed.

Lemma scrape_pages_run ctx pages vars w :
  exists stop vars' w' log rest,
    scrape_pages ctx pages vars w = (Val (stop, vars'), w') /\
    loop_summary ctx pages vars (w_trace w) stop vars' (w_trace w') log rest.
Proof.
  revert vars w. induction pages as [|page pages IH]; intros vars w.
  - exists None, vars, w, [], []. split; [reflexivity|].
    constructor; simpl; try reflexivity. lia.
  - destruct (scrape_page_step ctx vars page w)
      as (c & vars1 & w1 & Hstep & Hf & Hr & Hout).
    cbn [scrape_pages]. unfold bind at 1. rewrite Hstep. cbn [fst snd].
    destruct Hout as [content Hw He Hs | Hw He Hs | why Hw He Hs].
    + destruct (IH {| last_text := Some content;
                      pages_scraped := pages_scraped vars + 1 |} w1)
        as (stop & vars' & w' & log & rest & Hrun & S).
      exists stop, vars', w', ((page, true) :: log), rest.
      split; [exact Hrun|]. destruct S. constructor; cbn -[Z.of_nat].
      * congruence.
      * rewrite sum_written0, Hw, <- app_assoc. reflexivity.
      * rewrite sum_errors0, He. reflexivity.
      * rewrite sum_slept0, Hs.
        symmetry. apply repeat_shift.
      * congruence.
      * rewrite sum_counter0. unfold pages_where. cbn -[Z.of_nat]. lia.
      * rewrite sum_fetched0, Hf. destruct stop; cbn; rewrite <- app_assoc; reflexivity.
      * exact sum_stop0.
    + destruct (IH vars w1) as (stop & vars' & w' & log & rest & Hrun & S).
      exists stop, vars', w', ((page, false) :: log), rest.
      split; [exact Hrun|]. destruct S. constructor; cbn -[Z.of_nat].
      * congruence.
      * rewrite sum_written0, Hw. reflexivity.
      * rewrite sum_errors0, He, <- app_assoc. reflexivity.
      * rewrite sum_slept0, Hs. reflexivity.
      * congruence.
      * exact sum_counter0.
      * rewrite sum_fetched0, Hf. destruct stop; cbn; rewrite <- app_assoc; reflexivity.
      * exact sum_stop0.
    + exists (Some why), vars, w1, [], (page :: pages).
      split; [reflexivity|]. constructor; cbn; try assumption; try reflexivity.
      * lia.
      * discriminate.
Qed.

End LoopFacts.

(** ** The run *)

Section RunFacts.

Ltac split_match H :=
  match type of H with
  | context [match ?x with _ => _ end] =>
      lazymatch x with
      | context [match _ with _ => _ end] => fail
      | _ => destruct x eqn:?; simpl in H
      end
  end.

(** The part of [scrape_story] before the loop neither writes an
    artifact nor sleeps; when it succeeds it has asked for page 1 twice
    and the declared count is not negative. *)
Lemma scrape_setup_trace sid w r w1 :
  scrape_setup sid w = (r, w1) ->
  observe written (w_trace w1) = observe written (w_trace w) /\
  observe slept (w_trace w1) = observe slept (w_trace w) /\
  observe proc_error (w_trace w1) = observe proc_error (w_trace w) /\
  observe reported (w_trace w1) = observe reported (w_trace w) /\
  forall ctx, r = Val ctx ->
    observe fetched_page (w_trace w1) = 1 :: 1 :: observe fetched_page (w_trace w) /\
    0 <= total_pages ctx /\ story_id ctx = sid.
Proof.
  unfold scrape_setup, get_total_pages, try_except, bind, print, requests_get,
    raise_for_status, BeautifulSoup, os_makedirs, ret, raise.
  simpl. intros H.
  repeat split_match H;
    injection H as <- <-; obs; repeat split; try reflexivity; try discriminate;
    match goal with E : Val _ = Val _ |- _ => injection E as <- end;
    simpl; first [reflexivity | lia].
Qed.

Lemma scrape_setup_fetches sid w r w1 :
  scrape_setup sid w = (r, w1) ->
  exists new,
    observe fetched_page (w_trace w1) = new ++ observe fetched_page (w_trace w) /\
    Forall (fun p => p = 1) new.
Proof.
  unfold scrape_setup, get_total_pages, try_except, bind, print, requests_get,
    raise_for_status, BeautifulSoup, os_makedirs, ret, raise.
  simpl. intros H.
  repeat split_match H; injection H as <- <-; obs;
    first [ exists []; split; [reflexivity | repeat constructor]
          | exists [1]; split; [reflexivity | repeat constructor]
          | exists [1; 1]; split; [reflexivity | repeat constructor] ].
Qed.

Lemma scrape_loop_run ctx w :
  exists stop vars' w1 w' log rest,
    scrape_pages ctx (py_range 1 (total_pages ctx + 3)) initial_vars w
      = (Val (stop, vars'), w1) /\
    loop_summary ctx (py_range 1 (total_pages ctx + 3)) initial_vars
      (w_trace w) stop vars' (w_trace w1) log rest /\
    scrape_loop ctx w = (Val (stop, vars'), w') /\
    w_fs w' = w_fs w1 /\
    w_trace w' =
      EvPrint (MsgSaved (folder_name ctx))
        :: EvPrint (MsgPagesScraped (pages_scraped vars'))
        :: EvPrint (MsgFinished (story_title ctx)) :: w_trace w1.
Proof.
  destruct (scrape_pages_run ctx (py_range 1 (total_pages ctx + 3)) initial_vars w)
    as (stop & vars' & w1 & log & rest & Hrun & S).
  unfold scrape_loop, bind, print, ret. rewrite Hrun. simpl.
  do 6 eexists. split; [reflexivity|]. split; [exact S|].
  repeat split.
Qed.

(** [scrape_story] returns [False] exactly when the part before the
    loop raises; once the loop is reached it returns [True]. *)
Lemma scrape_story_cases sid w :
  (exists e w1,
      scrape_setup sid (emit (EvPrint (MsgStart sid)) w) = (Raise e, w1) /\
      scrape_story sid w = (Val false, emit (EvPrint MsgFatal) w1)) \/
  (exists ctx w1 r w2,
      scrape_setup sid (emit (EvPrint (MsgStart sid)) w) = (Val ctx, w1) /\
      scrape_loop ctx w1 = (Val r, w2) /\
      scrape_story sid w = (Val true, w2)).
Proof.
  unfold scrape_story, print, try_except, bind.
  destruct (scrape_setup sid (emit (EvPrint (MsgStart sid)) w))
    as [[ctx|e] w1] eqn:Hs.
  - right. destruct (scrape_loop_run ctx w1)
      as (stop & vars' & w1' & w2 & log & rest & _ & _ & Hl & _).
    exists ctx, w1, (stop, vars'), w2.
    rewrite Hl. repeat split.
  - left. exists e, w1. split; reflexivity.
Qed.

End RunFacts.

(** ** Ranges and logs *)

Section RangeFacts.

Lemma in_py_range a b p : In p (py_range a b) <-> a <= p < b.
Proof.
  unfold py_range. rewrite in_map_iff. split.
  - intros [i [<- Hi]]. apply in_seq in Hi. lia.
  - intros H. exists (Z.to_nat (p - a)). split; [lia|]. apply in_seq. lia.
Qed.

Lemma length_py_range a b : length (py_range a b) = Z.to_nat (b - a).
Proof. unfold py_range. rewrite length_map, length_seq. reflexivity. Qed.

Lemma py_range_prefix a b l1 l2 :
  py_range a b = l1 ++ l2 -> l1 = py_range a (a + Z.of_nat (length l1)).
Proof.
  intros H.
  assert (Hlen : (length l1 <= Z.to_nat (b - a))%nat).
  { rewrite <- length_py_range, H, length_app. lia. }
  assert (E : l1 = take (length l1) (py_range a b)).
  { rewrite H, take_app_length. reflexivity. }
  rewrite E at 1. unfold py_range.
  rewrite firstn_map, take_seq, Nat.min_l by exact Hlen.
  replace (Z.to_nat (a + Z.of_nat (length l1) - a)) with (length l1) by lia.
  reflexivity.
Qed.






End RangeFacts.

(** * The claims *)

(** ** Title extraction *)

(** C4, as worded (first separator found wins, nothing after it), fails:
    on a title holding both "ページ" and "|" the program cuts at "|"
    and then again at "ページ". *)
Lemma extract_story_title_not_first_match :
  extract_story_title title_two_separators = lit "Story 3" /\
  extract_story_title_first_match title_two_separators = lit "Story 3ページ" /\
  extract_story_title title_two_separators
    <> extract_story_title_first_match title_two_separators.
Proof. repeat split. vm_compute. discriminate. Qed.

(** C4, amended: after the marker is removed and the title stripped,
    every one of the four separators is applied in the fixed order, each
    one cutting the current title at its first occurrence when present
    (and stripping it); none of the four occurs in the result. *)
Theorem extract_story_title_applies_every_separator (s : pystr) :
  extract_story_title s =
    cut DELIM_PAGE (cut DELIM_SITE (cut DELIM_WIDE_PIPE (cut DELIM_PIPE
      (strip (replace MARKER [] s))))) /\
  Forall (fun d => contains d (extract_story_title s) = false) delimiters.
Proof.
  split; [|apply absent_extract].
  unfold extract_story_title, truncate_loop, delimiters. cbn [fold_left].
  rewrite !truncate_at_cut. reflexivity.
Qed.

(** C8, as worded, fails: removing the marker from a title can uncover
    a new marker, which a second extraction removes. *)
Lemma extract_story_title_not_idempotent :
  extract_story_title title_nested_marker = MARKER /\
  extract_story_title (extract_story_title title_nested_marker) = [] /\
  extract_story_title (extract_story_title title_nested_marker)
    <> extract_story_title title_nested_marker.
Proof. repeat split. vm_compute. discriminate. Qed.

(** C8, amended: extraction is idempotent on every input whose
    extracted title does not contain the marker. *)
Theorem extract_story_title_idempotent (s : pystr) :
  contains MARKER (extract_story_title s) = false ->
  extract_story_title (extract_story_title s) = extract_story_title s.
Proof.
  intros Hm. unfold extract_story_title at 1.
  rewrite (replace_absent _ _ _ Hm), extract_stripped.
  apply truncate_fold_absent, absent_extract.
Qed.

Lemma extract_story_title_idempotent_witness :
  contains MARKER
    (extract_story_title (lit "【本文】Story 3ページ - 小説投稿エブリスタ")) = false /\
  extract_story_title
    (extract_story_title (lit "【本文】Story 3ページ - 小説投稿エブリスタ"))
  = extract_story_title (lit "【本文】Story 3ページ - 小説投稿エブリスタ").
Proof.
  split; [reflexivity|].
  apply (extract_story_title_idempotent
           (lit "【本文】Story 3ページ - 小説投稿エブリスタ")).
  reflexivity.
Defined.

(** ** Image resolution *)





(** ** The page loop *)

(** C1. When the content of the page equals the content kept from the
    last written page, the loop stops there with [duplicate_content]:
    no later page is requested, the variables and the filesystem are
    unchanged, and no artifact is written. *)
Theorem duplicate_content_stops (ctx : context) (vars : loop_vars) (page : Z)
    (rest : list Z) (w : world) (resp : response) (doc : document) (b : body) :
  w_net w (w_clock w) (page_request ctx page) = Some resp ->
  resp_status_ok resp = true ->
  resp_html resp = Some doc ->
  doc_body doc = Some b ->
  last_text vars = Some (body_text b) ->
  exists w',
    scrape_pages ctx (page :: rest) vars w
      = (Val (Some duplicate_content, vars), w') /\
    w_fs w' = w_fs w /\
    observe written (w_trace w') = observe written (w_trace w) /\
    observe fetched_page (w_trace w') = page :: observe fetched_page (w_trace w).
Proof.
  unfold page_request. intros Hn Hs Hh Hb Hl.
  cbn [scrape_pages]. unfold bind at 1. run_page.
  rewrite Hn. simpl. rewrite Hs. simpl. rewrite Hh. simpl. rewrite Hb. simpl.
  rewrite Hl. rewrite bool_decide_eq_true_2 by reflexivity. simpl.
  eexists. repeat split.
Qed.

Lemma duplicate_content_stops_witness :
  exists w',
    scrape_pages demo_ctx [3; 4]
      {| last_text := Some (lit "two"); pages_scraped := 2 |} demo_world
      = (Val (Some duplicate_content,
              {| last_text := Some (lit "two"); pages_scraped := 2 |}), w') /\
    w_fs w' = w_fs demo_world /\
    observe written (w_trace w') = observe written (w_trace demo_world) /\
    observe fetched_page (w_trace w')
      = 3 :: observe fetched_page (w_trace demo_world).
Proof.
  apply (duplicate_content_stops demo_ctx
           {| last_text := Some (lit "two"); pages_scraped := 2 |} 3 [4]
           demo_world (page_of "two" [])
           {| doc_title := Some (lit "【本文】Tale | エブリスタ");
              doc_partition := Some (Some 2%N);
              doc_body := Some {| body_text := lit "two"; body_imgs := [] |} |}
           {| body_text := lit "two"; body_imgs := [] |});
    reflexivity.
Defined.

(** The content kept in [last_text] is that of the page whose artifact
    was written last: a page that is written leaves its own content
    there. *)
Lemma written_page_sets_last_text ctx vars page w vars' w' :
  scrape_page ctx vars page w = (Val (Continue, vars'), w') ->
  pages_scraped vars' = pages_scraped vars + 1 ->
  exists resp doc b,
    w_net w (w_clock w) (page_request ctx page) = Some resp /\
    resp_html resp = Some doc /\ doc_body doc = Some b /\
    last_text vars' = Some (body_text b).
Proof.
  unfold page_request. run_page. intros H Hc.
  destruct (w_net w (w_clock w) _) as [resp|]; simpl in H; [|discriminate].
  destruct (resp_status_ok resp); simpl in H; [|discriminate].
  destruct (resp_html resp) as [doc|] eqn:Hd; simpl in H;
    [|injection H as <- _; lia].
  destruct (doc_body doc) as [b|] eqn:Hb; simpl in H; [|discriminate].
  exists resp, doc, b. repeat split; try assumption.
  match type of H with context [if ?c then _ else _] => destruct c end;
    simpl in H; [discriminate|].
  destruct (truthy (strip (body_text b))); simpl in H; [|discriminate].
  match type of H with
  | context [download_images ?i ?d ?n ?w0] =>
      destruct (download_images_total i d n w0) as (k & w2 & Hk);
      rewrite Hk in H
  end.
  destruct (k >? 0); simpl in H; destruct (writable _ _); simpl in H;
    injection H as <- _; solve [reflexivity | lia].
Qed.

(** The pages the loop of a run asks for: 1 to [k], in order. *)
Lemma scrape_loop_fetches ctx w :
  exists stop vars' w' (k : nat),
    scrape_loop ctx w = (Val (stop, vars'), w') /\
    (k <= Z.to_nat (total_pages ctx + 2))%nat /\
    observe fetched_page (w_trace w')
      = rev (py_range 1 (1 + Z.of_nat k)) ++ observe fetched_page (w_trace w) /\
    match stop with
    | None => k = Z.to_nat (total_pages ctx + 2)
    | Some _ => (0 < k)%nat
    end.
Proof.
  destruct (scrape_loop_run ctx w)
    as (stop & vars' & w1 & w' & log & rest & _ & S & Hl & _ & Ht).
  destruct S.
  assert (Hlen : length (py_range 1 (total_pages ctx + 3))
                 = Z.to_nat (total_pages ctx + 2)).
  { rewrite length_py_range. f_equal. lia. }
  exists stop, vars', w'.
  destruct stop as [why|].
  - destruct rest as [|p rest']; [congruence|].
    exists (length (map fst log ++ [p])). split; [exact Hl|].
    assert (Hp : py_range 1 (total_pages ctx + 3) = (map fst log ++ [p]) ++ rest').
    { rewrite sum_pages0, <- app_assoc. reflexivity. }
    split; [rewrite <- Hlen, Hp, !length_app; lia|].
    split; [|rewrite length_app; simpl; lia].
    rewrite Ht. obs. rewrite sum_fetched0. simpl firstn.
    rewrite <- (py_range_prefix _ _ _ _ Hp). reflexivity.
  - subst rest. rewrite app_nil_r in sum_pages0.
    exists (length (map fst log)). split; [exact Hl|].
    split; [rewrite <- Hlen, sum_pages0; lia|].
    split; [|rewrite <- Hlen, sum_pages0; reflexivity].
    rewrite Ht. obs. rewrite sum_fetched0.
    assert (Hp : py_range 1 (total_pages ctx + 3) = map fst log ++ []).
    { rewrite app_nil_r. exact sum_pages0. }
    rewrite <- (py_range_prefix _ _ _ _ Hp). reflexivity.
Qed.

(** Over a whole run, the part before the loop asks for page 1 only,
    and the declared count is not negative: every page requested lies
    between 1 and [total_pages + 2]. *)
Lemma scrape_story_fetches_in_range sid w :
  exists new,
    observe fetched_page (w_trace (snd (scrape_story sid w)))
      = new ++ observe fetched_page (w_trace w) /\
    (Forall (fun p => p = 1) new \/
     exists ctx w1,
       scrape_setup sid (emit (EvPrint (MsgStart sid)) w) = (Val ctx, w1) /\
       Forall (fun p => 1 <= p <= total_pages ctx + 2) new).
Proof.
  destruct (scrape_story_cases sid w)
    as [(e & w1 & Hs & Hst) | (ctx & w1 & r & w2 & Hs & Hl & Hst)];
    rewrite Hst; simpl.
  - destruct (scrape_setup_fetches _ _ _ _ Hs) as (new & Hn & Hone).
    exists new. obs_in Hn. obs. split; [exact Hn | left; exact Hone].
  - destruct (scrape_setup_trace _ _ _ _ Hs) as (_ & _ & _ & _ & Hf).
    destruct (Hf ctx eq_refl) as (Hf1 & Hpos & _). obs_in Hf1.
    destruct (scrape_loop_fetches ctx w1) as (stop & vars' & w' & k & Hl' & Hk & Hfl & _).
    rewrite Hl in Hl'. injection Hl' as _ ->.
    exists (rev (py_range 1 (1 + Z.of_nat k)) ++ [1; 1]).
    split; [rewrite Hfl, Hf1, <- app_assoc; reflexivity|].
    right. exists ctx, w1. split; [exact Hs|].
    apply Forall_app. split.
    + apply Forall_forall. intros p Hp. apply list_elem_of_In, in_rev in Hp.
      apply in_py_range in Hp. lia.
    + repeat constructor; lia.
Qed.

(** C2. The loop requests the pages of [range(1, total_pages + 3)],
    that is 1 to [total_pages + 2], in order and without a gap, up to
    the page at which it stops, and every one of them when it does not
    stop. *)
Theorem cursor_stays_in_range (ctx : context) (w : world) :
  (forall p, In p (py_range 1 (total_pages ctx + 3))
             <-> 1 <= p <= total_pages ctx + 2) /\
  exists stop vars' w' (k : nat),
    scrape_loop ctx w = (Val (stop, vars'), w') /\
    (k <= Z.to_nat (total_pages ctx + 2))%nat /\
    observe fetched_page (w_trace w')
      = rev (py_range 1 (1 + Z.of_nat k)) ++ observe fetched_page (w_trace w) /\
    match stop with
    | None => k = Z.to_nat (total_pages ctx + 2)
    | Some _ => (0 < k)%nat
    end.
Proof.
  split; [intros p; rewrite in_py_range; lia | apply scrape_loop_fetches].
Qed.





(** C9. Over any stretch of the loop the counter grows by the number
    of artifacts written in it; the loop of a run starts it at 0, and
    the count printed at the end is the number of artifacts the run
    wrote. *)
Theorem pages_scraped_counts_artifacts (ctx : context) (pages : list Z)
    (vars : loop_vars) (w : world) :
  (exists stop vars' w' new,
      scrape_pages ctx pages vars w = (Val (stop, vars'), w') /\
      observe written (w_trace w') = new ++ observe written (w_trace w) /\
      pages_scraped vars' = pages_scraped vars + Z.of_nat (length new)) /\
  (exists stop vars' w' new,
      scrape_loop ctx w = (Val (stop, vars'), w') /\
      observe written (w_trace w') = new ++ observe written (w_trace w) /\
      pages_scraped vars' = Z.of_nat (length new) /\
      observe reported (w_trace w')
        = Z.of_nat (length new) :: observe reported (w_trace w)).
Proof.
  split.
  - destruct (scrape_pages_run ctx pages vars w)
      as (stop & vars' & w' & log & rest & Hrun & S). destruct S.
    exists stop, vars', w', (rev (map (page_filename ctx) (pages_where true log))).
    split; [exact Hrun|]. split; [exact sum_written0|].
    rewrite sum_counter0, length_rev, length_map. reflexivity.
  - destruct (scrape_loop_run ctx w)
      as (stop & vars' & w1 & w' & log & rest & _ & S & Hl & _ & Ht).
    destruct S.
    exists stop, vars', w', (rev (map (page_filename ctx) (pages_where true log))).
    assert (Hc : pages_scraped vars'
                 = Z.of_nat (length (rev (map (page_filename ctx)
                                            (pages_where true log))))).
    { rewrite sum_counter0, length_rev, length_map. reflexivity. }
    split; [exact Hl|]. rewrite Ht. obs.
    split; [exact sum_written0|]. split; [exact Hc|].
    rewrite sum_reported0, Hc. reflexivity.
Qed.

(** ** The run and the command line *)

(** A request that fails stops the loop at its page with
    [network_error]; nothing is written and the variables stay. *)
Lemma fetch_failure_stops ctx vars page rest w :
  fetch_fails w (page_request ctx page) = true ->
  exists w',
    scrape_pages ctx (page :: rest) vars w = (Val (Some network_error, vars), w') /\
    w_fs w' = w_fs w /\
    observe written (w_trace w') = observe written (w_trace w).
Proof.
  unfold fetch_fails, page_request. intros Hf.
  cbn [scrape_pages]. unfold bind at 1. run_page.
  destruct (w_net w (w_clock w) _) as [resp|]; simpl.
  - destruct (resp_status_ok resp); [discriminate|]. simpl.
    eexists. repeat split.
  - eexists. repeat split.
Qed.

(** C10. Once the part before the loop has succeeded, a failing request
    in the loop ends the loop with [network_error], and a loop ended
    that way lets [scrape_story] return [True] and the process exit
    with status 0, whatever the number of pages scraped. *)
Theorem network_error_not_fatal (chr_isdigit : N -> bool) (a : args)
    (w w1 : world) (ctx : context) :
  str_isdigit chr_isdigit (arg_story_id a) = true ->
  scrape_setup (arg_story_id a) (emit (EvPrint (MsgStart (arg_story_id a))) w)
    = (Val ctx, w1) ->
  (forall vars page rest wk,
      fetch_fails wk (page_request ctx page) = true ->
      exists wk',
        scrape_pages ctx (page :: rest) vars wk
          = (Val (Some network_error, vars), wk')) /\
  (forall vars w2,
      scrape_pages ctx (py_range 1 (total_pages ctx + 3)) initial_vars w1
        = (Val (Some network_error, vars), w2) ->
      exists w',
        scrape_story (arg_story_id a) w = (Val true, w') /\
        main chr_isdigit a w = (Val 0, w') /\
        observe reported (w_trace w')
          = pages_scraped vars :: observe reported (w_trace w2)).
Proof.
  intros Hd Hs. split.
  - intros vars page rest wk Hf.
    destruct (fetch_failure_stops ctx vars page rest wk Hf) as (wk' & H & _).
    exists wk'. exact H.
  - intros vars w2 Hrun.
    destruct (scrape_loop_run ctx w1)
      as (stop & vars' & w1' & w' & log & rest & Hrun' & _ & Hl & _ & Ht).
    rewrite Hrun in Hrun'. injection Hrun' as <- <- <-.
    assert (Hst : scrape_story (arg_story_id a) w = (Val true, w')).
    { unfold scrape_story, print, try_except, bind. rewrite Hs, Hl. reflexivity. }
    exists w'. split; [exact Hst|]. split.
    + unfold main. rewrite Hd. simpl. unfold bind. rewrite Hst. reflexivity.
    + rewrite Ht. obs. reflexivity.
Qed.

Lemma network_error_not_fatal_witness :
  exists w',
    scrape_story (lit "17") flaky_world = (Val true, w') /\
    main ascii_isdigit (demo_args (1 # 2)) flaky_world = (Val 0, w') /\
    observe reported (w_trace w') = [0].
Proof.
  destruct (network_error_not_fatal ascii_isdigit (demo_args (1 # 2)) flaky_world
              (snd (scrape_setup (lit "17")
                      (emit (EvPrint (MsgStart (lit "17"))) flaky_world)))
              demo_ctx) as [_ H]; [reflexivity | vm_compute; reflexivity |].
  apply (H initial_vars
           (snd (scrape_pages demo_ctx (py_range 1 (total_pages demo_ctx + 3))
                   initial_vars
                   (snd (scrape_setup (lit "17")
                           (emit (EvPrint (MsgStart (lit "17"))) flaky_world)))))).
  vm_compute. reflexivity.
Defined.

(** Every pause of a run lasts half a second. *)
Lemma main_sleeps chr_isdigit a w :
  exists k,
    observe slept (w_trace (snd (main chr_isdigit a w)))
      = repeat (1 # 2) k ++ observe slept (w_trace w).
Proof.
  unfold main. destruct (negb (str_isdigit chr_isdigit (arg_story_id a))).
  - exists O. reflexivity.
  - unfold bind at 1.
    destruct (scrape_story_cases (arg_story_id a) w)
      as [(e & w1 & Hs & Hst) | (ctx & w1 & r & w2 & Hs & Hl & Hst)];
      rewrite Hst; simpl;
      destruct (scrape_setup_trace _ _ _ _ Hs) as (_ & Hsl & _).
    + exists O. obs. rewrite Hsl. reflexivity.
    + destruct (scrape_loop_run ctx w1)
        as (stop & vars' & w1' & w' & log & rest & _ & S & Hl' & _ & Ht).
      rewrite Hl in Hl'. injection Hl' as -> ->. destruct S.
      exists (length (pages_where true log)).
      rewrite Ht. obs. rewrite sum_slept0, Hsl. reflexivity.
Qed.

(** C5 does not hold of the program: the value of [--delay] never
    reaches [scrape_story], so two runs that differ only in it are the
    same run, and every pause lasts 0.5 s. *)
Theorem delay_flag_ignored (chr_isdigit : N -> bool) (sid : pystr)
    (d d' : Q) (w : world) :
  main chr_isdigit {| arg_story_id := sid; arg_delay := d |} w
    = main chr_isdigit {| arg_story_id := sid; arg_delay := d' |} w /\
  exists k,
    observe slept
      (w_trace (snd (main chr_isdigit {| arg_story_id := sid; arg_delay := d |} w)))
    = repeat default_delay k ++ observe slept (w_trace w).
Proof. split; [reflexivity | apply main_sleeps]. Qed.

(** With [--delay 2] on the two-page story the two pauses still last
    half a second each. *)
Example delay_two_seconds_ignored :
  rev (observe slept (w_trace (snd (main ascii_isdigit (demo_args 2) demo_world))))
    = [1 # 2; 1 # 2].
Proof. vm_compute. reflexivity. Qed.

(** * Further properties *)

(** ** File names and titles *)

Section NameFacts.

Lemma Forall_infix (P : N -> Prop) (u t : pystr) :
  infix u t -> Forall P t -> Forall P u.
Proof.
  intros [a [b ->]] H. apply Forall_app in H as [_ H].
  apply Forall_app in H as [H _]. exact H.
Qed.

Lemma length_infix (u t : pystr) : infix u t -> (length u <= length t)%nat.
Proof. intros [a [b ->]]. rewrite !length_app. lia. Qed.

Lemma sanitize_char_valid c : is_invalid_char (sanitize_char c) = false.
Proof.
  unfold sanitize_char. destruct (is_invalid_char c) eqn:E; [reflexivity | exact E].
Qed.

Lemma sanitize_char_fixed (l : pystr) :
  Forall (fun c => is_invalid_char c = false) l -> map sanitize_char l = l.
Proof.
  induction 1 as [|c l Hc _ IH]; simpl; [reflexivity|].
  unfold sanitize_char at 1. rewrite Hc, IH. reflexivity.
Qed.

Lemma sanitize_filename_spec (name : pystr) :
  Forall (fun c => is_invalid_char c = false) (sanitize_filename name) /\
  strip (sanitize_filename name) = sanitize_filename name /\
  (length (sanitize_filename name) <= length name)%nat.
Proof.
  unfold sanitize_filename. fold sanitize_char.
  change (map (fun c => sanitize_char c) name) with (map sanitize_char name).
  split; [|split].
  - eapply Forall_infix; [apply infix_strip|].
    apply Forall_forall. intros c Hc. apply list_elem_of_In, in_map_iff in Hc.
    destruct Hc as [c0 [<- _]]. apply sanitize_char_valid.
  - apply strip_idempotent.
  - rewrite <- (length_map sanitize_char name). apply length_infix, infix_strip.
Qed.

(** [sanitize_filename] returns a name free of the nine characters of
    its character class (backslash, slash, colon, star, question mark,
    double quote, both angle brackets, pipe), without white space at
    either end, and no longer than its argument. *)
Theorem sanitize_filename_valid (name : pystr) :
  Forall (fun c => is_invalid_char c = false) (sanitize_filename name) /\
  strip (sanitize_filename name) = sanitize_filename name /\
  (length (sanitize_filename name) <= length name)%nat.
Proof. exact (sanitize_filename_spec name). Qed.

(** Sanitizing a sanitized name changes nothing. *)
Theorem sanitize_filename_idempotent (name : pystr) :
  sanitize_filename (sanitize_filename name) = sanitize_filename name.
Proof.
  destruct (sanitize_filename_spec name) as (Hv & Hs & _).
  unfold sanitize_filename at 1.
  change (map _ (sanitize_filename name))
    with (map sanitize_char (sanitize_filename name)).
  rewrite (sanitize_char_fixed _ Hv). exact Hs.
Qed.

Lemma length_replace_go (old s : pystr) k :
  (length (replace_go old [] s k) <= length s)%nat.
Proof.
  revert k. induction s as [|c s IH]; intros k; simpl; [lia|].
  destruct k as [|k].
  - destruct (startswith old (c :: s)); simpl.
    + specialize (IH (length old - 1)%nat). lia.
    + specialize (IH O). lia.
  - specialize (IH k). lia.
Qed.

(** The extracted title has no white space at either end, is a
    contiguous piece of the title with the marker removed, and is no
    longer than the title. *)
Theorem extract_story_title_shape (s : pystr) :
  strip (extract_story_title s) = extract_story_title s /\
  infix (extract_story_title s) (replace MARKER [] s) /\
  (length (extract_story_title s) <= length s)%nat.
Proof.
  split; [apply extract_stripped|].
  assert (H : infix (extract_story_title s) (replace MARKER [] s)).
  { eapply infix_trans; [apply infix_truncate_fold | apply infix_strip]. }
  split; [exact H|].
  apply length_infix in H. pose proof (length_replace_go MARKER s O).
  unfold replace in H. lia.
Qed.

(** A title that is already clean (stripped, without the marker and
    without any separator) is returned as it is. *)
Theorem extract_story_title_clean (s : pystr) :
  strip s = s ->
  contains MARKER s = false ->
  Forall (fun d => contains d s = false) delimiters ->
  extract_story_title s = s.
Proof.
  intros Hs Hm Hd. unfold extract_story_title, truncate_loop.
  rewrite (replace_absent _ _ _ Hm), Hs. apply truncate_fold_absent, Hd.
Qed.

Lemma extract_story_title_clean_witness :
  extract_story_title (lit "Tale of two cities") = lit "Tale of two cities".
Proof.
  apply (extract_story_title_clean (lit "Tale of two cities"));
    [reflexivity | reflexivity | repeat constructor].
Defined.

Lemma to_uint_not_nil n : N.to_uint n <> Decimal.Nil.
Proof.
  destruct n as [|p]; simpl; [discriminate|].
  apply DecimalPos.Unsigned.to_uint_nonnil.
Qed.

Lemma ascii_of_N_of_ascii (l : list ascii) :
  map ascii_of_N (map N_of_ascii l) = l.
Proof.
  induction l as [|a l IH]; simpl; [reflexivity|].
  rewrite ascii_N_embedding, IH. reflexivity.
Qed.

Lemma decimal_value_str_of_N n : decimal_value (str_of_N n) = Some n.
Proof.
  unfold decimal_value, str_of_N.
  rewrite ascii_of_N_of_ascii, string_of_list_ascii_of_string.
  rewrite NilZero.usu by apply to_uint_not_nil. simpl.
  rewrite DecimalN.Unsigned.of_to. reflexivity.
Qed.

Lemma str_of_N_nonempty n : str_of_N n <> [].
Proof.
  intros H. pose proof (decimal_value_str_of_N n) as E. rewrite H in E.
  discriminate.
Qed.

Lemma decimal_value_zero (s : pystr) :
  s <> [] -> decimal_value (48%N :: s) = decimal_value s.
Proof.
  destruct s as [|c s]; [congruence|]. intros _.
  unfold decimal_value.
  cbn [map string_of_list_ascii NilZero.uint_of_string NilEmpty.uint_of_string].
  generalize (uint_of_char (ascii_of_N c)
                (NilEmpty.uint_of_string
                   (string_of_list_ascii (map ascii_of_N s)))).
  intros [d|]; reflexivity.
Qed.

Lemma decimal_value_zfill w (s : pystr) :
  s <> [] -> decimal_value (zfill w s) = decimal_value s.
Proof.
  intros Hs. unfold zfill. induction (w - length s)%nat as [|k IH]; simpl.
  - reflexivity.
  - rewrite decimal_value_zero; [exact IH|].
    destruct (repeat 48%N k); simpl; [exact Hs | discriminate].
Qed.

Lemma decimal_value_format_03d (page : Z) :
  0 <= page -> decimal_value (format_03d page) = Some (Z.to_N page).
Proof.
  intros Hp. unfold format_03d.
  destruct (page <? 0) eqn:E; [apply Z.ltb_lt in E; lia|].
  rewrite decimal_value_zfill by apply str_of_N_nonempty.
  apply decimal_value_str_of_N.
Qed.

(** The page number can be read back from its three-digit form: the
    format pads and never truncates. *)
Theorem format_03d_round_trip (page : Z) :
  0 <= page -> decimal_value (format_03d page) = Some (Z.to_N page).
Proof. exact (decimal_value_format_03d page). Qed.

Lemma format_03d_round_trip_witness :
  decimal_value (format_03d 7) = Some 7%N.
Proof. apply (format_03d_round_trip 7). lia. Defined.

End NameFacts.

(** ** Before the loop *)

Ltac case_split H :=
  match type of H with
  | context [match ?x with _ => _ end] =>
      lazymatch x with
      | context [match _ with _ => _ end] => fail
      | _ => destruct x eqn:?; simpl in H
      end
  end.

Section SetupFacts.

Lemma get_total_pages_run (sid : pystr) (w : world) :
  exists w',
    get_total_pages sid w
      = (page_count_outcome (w_net w (w_clock w) (first_page_request sid)), w') /\
    w_fs w' = w_fs w /\
    w_clock w' = S (w_clock w) /\
    w_trace w' = EvGet (first_page_request sid) :: w_trace w /\
    match fst (get_total_pages sid w) with
    | Val n => 0 <= n
    | Raise e => e <> RequestException
    end.
Proof.
  unfold get_total_pages, page_count_outcome, first_page_request, try_except,
    bind, requests_get, raise_for_status, BeautifulSoup, ret, raise.
  destruct (w_net w (w_clock w) _) as [resp|]; simpl;
    [|eexists; repeat split; discriminate].
  destruct (resp_status_ok resp); simpl; [|eexists; repeat split; discriminate].
  destruct (resp_html resp) as [doc|]; simpl; [|eexists; repeat split; discriminate].
  destruct (doc_partition doc) as [[n|]|]; simpl;
    eexists; repeat split; solve [discriminate | lia].
Qed.

(** [get_total_pages] sends one request, for page 1, and touches no
    file; a failed request surfaces as [ValueError], never as a
    [RequestException]; a count that is returned is not negative. *)
Theorem get_total_pages_outcome (sid : pystr) (w : world) :
  exists w',
    get_total_pages sid w
      = (page_count_outcome (w_net w (w_clock w) (first_page_request sid)), w') /\
    w_fs w' = w_fs w /\
    w_clock w' = S (w_clock w) /\
    w_trace w' = EvGet (first_page_request sid) :: w_trace w /\
    match fst (get_total_pages sid w) with
    | Val n => 0 <= n
    | Raise e => e <> RequestException
    end.
Proof. exact (get_total_pages_run sid w). Qed.

(** The part before the loop creates directories only: it leaves every
    regular file as it was. *)
Lemma scrape_setup_files sid w r w1 :
  scrape_setup sid w = (r, w1) ->
  fs_files (w_fs w1) = fs_files (w_fs w) /\ fs_deny (w_fs w1) = fs_deny (w_fs w).
Proof.
  unfold scrape_setup, get_total_pages, try_except, bind, print, requests_get,
    raise_for_status, BeautifulSoup, os_makedirs, ret, raise.
  simpl. intros H.
  repeat case_split H; injection H as <- <-; split; reflexivity.
Qed.

(** When the page count cannot be obtained the run is over at once:
    [scrape_story] returns [False] having sent that one request, and
    the filesystem is as it was, no folder is created. *)
Theorem page_count_failure_creates_nothing (sid : pystr) (w w1 : world) (e : exn) :
  get_total_pages sid (emit (EvPrint (MsgStart sid)) w) = (Raise e, w1) ->
  exists w',
    scrape_story sid w = (Val false, w') /\
    w_fs w' = w_fs w /\
    w_clock w' = S (w_clock w) /\
    w_trace w' =
      [EvPrint MsgFatal; EvGet (first_page_request sid); EvPrint (MsgStart sid)]
        ++ w_trace w.
Proof.
  intros H.
  destruct (get_total_pages_run sid (emit (EvPrint (MsgStart sid)) w))
    as (w1' & Hg & Hfs & Hck & Htr & _).
  rewrite H in Hg. injection Hg as Ho <-.
  unfold scrape_story, scrape_setup, print, try_except, bind. rewrite H. simpl.
  eexists. split; [reflexivity|]. simpl.
  rewrite Hfs, Hck, Htr. repeat split.
Qed.

Lemma page_count_failure_creates_nothing_witness :
  exists w',
    scrape_story (lit "17") unlabelled_world = (Val false, w') /\
    w_fs w' = w_fs unlabelled_world /\
    w_clock w' = S (w_clock unlabelled_world) /\
    w_trace w' =
      [EvPrint MsgFatal; EvGet (first_page_request (lit "17"));
       EvPrint (MsgStart (lit "17"))] ++ w_trace unlabelled_world.
Proof.
  apply (page_count_failure_creates_nothing (lit "17") unlabelled_world
           (snd (get_total_pages (lit "17")
                   (emit (EvPrint (MsgStart (lit "17"))) unlabelled_world)))
           ValueError).
  vm_compute. reflexivity.
Defined.

(** A run that returns [False] has written no file and has not paused:
    it failed before the loop. *)
Theorem failed_run_writes_nothing (sid : pystr) (w w' : world) :
  scrape_story sid w = (Val false, w') ->
  fs_files (w_fs w') = fs_files (w_fs w) /\
  observe written (w_trace w') = observe written (w_trace w) /\
  observe slept (w_trace w') = observe slept (w_trace w) /\
  observe reported (w_trace w') = observe reported (w_trace w) /\
  exists e w1,
    scrape_setup sid (emit (EvPrint (MsgStart sid)) w) = (Raise e, w1).
Proof.
  intros H.
  destruct (scrape_story_cases sid w)
    as [(e & w1 & Hs & Hst) | (ctx & w1 & r & w2 & Hs & Hl & Hst)];
    rewrite Hst in H; [|discriminate].
  injection H as <-.
  destruct (scrape_setup_files _ _ _ _ Hs) as (Hf & _).
  destruct (scrape_setup_trace _ _ _ _ Hs) as (Hw & Hsl & _ & Hr & _).
  obs_in Hw. obs_in Hsl. obs_in Hr. obs.
  repeat split; try assumption. exists e, w1. exact Hs.
Qed.

Lemma failed_run_writes_nothing_witness :
  fs_files (w_fs (snd (scrape_story (lit "17") dead_world)))
    = fs_files (w_fs dead_world).
Proof.
  apply (failed_run_writes_nothing (lit "17") dead_world
           (snd (scrape_story (lit "17") dead_world))).
  vm_compute. reflexivity.
Defined.


End SetupFacts.

(** ** Pages *)

Section MorePageFacts.

(** A page without the content block stops the loop with [no_body]:
    nothing is written, the variables stay, no later page is
    requested. *)
Theorem missing_body_stops (ctx : context) (vars : loop_vars) (page : Z)
    (rest : list Z) (w : world) (resp : response) (doc : document) :
  w_net w (w_clock w) (page_request ctx page) = Some resp ->
  resp_status_ok resp = true ->
  resp_html resp = Some doc ->
  doc_body doc = None ->
  exists w',
    scrape_pages ctx (page :: rest) vars w = (Val (Some no_body, vars), w') /\
    w_fs w' = w_fs w /\
    observe written (w_trace w') = observe written (w_trace w) /\
    observe fetched_page (w_trace w') = page :: observe fetched_page (w_trace w).
Proof.
  unfold page_request. intros Hn Hs Hh Hb.
  cbn [scrape_pages]. unfold bind at 1. run_page.
  rewrite Hn. simpl. rewrite Hs. simpl. rewrite Hh. simpl. rewrite Hb. simpl.
  eexists. repeat split.
Qed.

Lemma missing_body_stops_witness :
  exists w',
    scrape_pages demo_ctx [4; 5] initial_vars blank_world
      = (Val (Some no_body, initial_vars), w') /\
    w_fs w' = w_fs blank_world /\
    observe written (w_trace w') = observe written (w_trace blank_world) /\
    observe fetched_page (w_trace w')
      = 4 :: observe fetched_page (w_trace blank_world).
Proof.
  apply (missing_body_stops demo_ctx initial_vars 4 [5] blank_world
           bodiless_response
           {| doc_title := Some (lit "Tale"); doc_partition := None;
              doc_body := None |});
    reflexivity.
Defined.

(** A page whose content is empty or white space only stops the loop
    with [empty_page] and nothing is written.  The duplicate test comes
    first in the code, but the content it compares with is never blank. *)
Theorem blank_page_stops (ctx : context) (vars : loop_vars) (page : Z)
    (rest : list Z) (w : world) (resp : response) (doc : document) (b : body) :
  last_text_not_blank vars ->
  w_net w (w_clock w) (page_request ctx page) = Some resp ->
  resp_status_ok resp = true ->
  resp_html resp = Some doc ->
  doc_body doc = Some b ->
  strip (body_text b) = [] ->
  exists w',
    scrape_pages ctx (page :: rest) vars w = (Val (Some empty_page, vars), w') /\
    w_fs w' = w_fs w /\
    observe written (w_trace w') = observe written (w_trace w) /\
    observe fetched_page (w_trace w') = page :: observe fetched_page (w_trace w).
Proof.
  unfold page_request, last_text_not_blank. intros Hinv Hn Hs Hh Hb Hblank.
  cbn [scrape_pages]. unfold bind at 1. run_page.
  rewrite Hn. simpl. rewrite Hs. simpl. rewrite Hh. simpl. rewrite Hb. simpl.
  assert (Hdup : match last_text vars with
                 | Some t => bool_decide (body_text b = t)
                 | None => false
                 end = false).
  { destruct (last_text vars) as [t|]; [|reflexivity].
    apply bool_decide_eq_false_2. intros E. rewrite E in Hblank.
    exact (Hinv Hblank). }
  rewrite Hdup, Hblank. simpl. eexists. repeat split.
Qed.

Lemma blank_page_stops_witness :
  exists w',
    scrape_pages demo_ctx [3; 4]
      {| last_text := Some (lit "two"); pages_scraped := 2 |} blank_world
      = (Val (Some empty_page,
              {| last_text := Some (lit "two"); pages_scraped := 2 |}), w') /\
    w_fs w' = w_fs blank_world /\
    observe written (w_trace w') = observe written (w_trace blank_world) /\
    observe fetched_page (w_trace w')
      = 3 :: observe fetched_page (w_trace blank_world).
Proof.
  apply (blank_page_stops demo_ctx
           {| last_text := Some (lit "two"); pages_scraped := 2 |} 3 [4]
           blank_world (page_of "   " [])
           {| doc_title := Some (lit "【本文】Tale | エブリスタ");
              doc_partition := Some (Some 2%N);
              doc_body := Some {| body_text := lit "   "; body_imgs := [] |} |}
           {| body_text := lit "   "; body_imgs := [] |});
    solve [reflexivity | discriminate].
Defined.

(** What one iteration does to the variables: they change only when
    the artifact was written. *)
Lemma scrape_page_vars ctx vars page w c vars' w' :
  scrape_page ctx vars page w = (Val (c, vars'), w') ->
  vars' = vars \/
  exists resp doc b,
    w_net w (w_clock w) (page_request ctx page) = Some resp /\
    resp_html resp = Some doc /\ doc_body doc = Some b /\
    strip (body_text b) <> [] /\
    c = Continue /\
    vars' = {| last_text := Some (body_text b);
               pages_scraped := pages_scraped vars + 1 |} /\
    fs_files (w_fs w') !! page_filename ctx page
      = Some (page_artifact (page_title_of ctx doc page) (body_text b)).
Proof.
  unfold page_request, page_title_of. run_page. intros H.
  destruct (w_net w (w_clock w) _) as [resp|]; simpl in H;
    [|injection H as _ <- _; left; reflexivity].
  destruct (resp_status_ok resp); simpl in H;
    [|injection H as _ <- _; left; reflexivity].
  destruct (resp_html resp) as [doc|] eqn:Hd; simpl in H;
    [|injection H as _ <- _; left; reflexivity].
  destruct (doc_body doc) as [b|] eqn:Hb; simpl in H;
    [|injection H as _ <- _; left; reflexivity].
  match type of H with context [if ?x then _ else _] => destruct x end;
    simpl in H; [injection H as _ <- _; left; reflexivity|].
  destruct (truthy (strip (body_text b))) eqn:Ht; simpl in H;
    [|injection H as _ <- _; left; reflexivity].
  match type of H with
  | context [download_images ?i ?d ?n ?w0] =>
      destruct (download_images_total i d n w0) as (k & w2 & Hk);
      rewrite Hk in H
  end.
  destruct (k >? 0); simpl in H; destruct (writable _ _); simpl in H;
    injection H as <- <- <-; try (left; reflexivity);
    right; exists resp, doc, b; simpl; rewrite lookup_insert_eq;
    repeat (split;
            [first [ reflexivity | assumption
                   | intros E; rewrite E in Ht; discriminate ]|]);
    reflexivity.
Qed.

(** The artifact of a page that was written holds the title line, a
    line of as many [=] signs as the title has characters, an empty
    line, and the text of the content block as it was read: the image
    placeholders are put in the tree after the text was taken and do
    not reach the file.  The text is never blank. *)
Theorem written_artifact_content (ctx : context) (vars vars' : loop_vars)
    (page : Z) (w w' : world) :
  scrape_page ctx vars page w = (Val (Continue, vars'), w') ->
  pages_scraped vars' = pages_scraped vars + 1 ->
  exists resp doc b,
    w_net w (w_clock w) (page_request ctx page) = Some resp /\
    resp_html resp = Some doc /\ doc_body doc = Some b /\
    strip (body_text b) <> [] /\
    fs_files (w_fs w') !! page_filename ctx page
      = Some (page_title_of ctx doc page ++ [10%N]
                ++ repeat 61%N (length (page_title_of ctx doc page))
                ++ [10%N; 10%N] ++ body_text b).
Proof.
  intros H Hc.
  destruct (scrape_page_vars _ _ _ _ _ _ _ H)
    as [-> | (resp & doc & b & Hn & Hd & Hb & Ht & _ & _ & Hf)]; [lia|].
  exists resp, doc, b. repeat split; assumption.
Qed.

Lemma written_artifact_content_witness :
  fs_files (w_fs (snd (scrape_page demo_ctx initial_vars 1 demo_world)))
    !! lit "Tale - 17/page_001.txt"
  = Some (lit "Tale" ++ [10%N] ++ lit "====" ++ [10%N; 10%N] ++ lit "one").
Proof.
  destruct (written_artifact_content demo_ctx initial_vars
              {| last_text := Some (lit "one"); pages_scraped := 1 |} 1
              demo_world
              (snd (scrape_page demo_ctx initial_vars 1 demo_world)))
    as (resp & doc & b & Hn & Hd & Hb & _ & Hf);
    [vm_compute; reflexivity | reflexivity |].
  vm_compute in Hn. injection Hn as <-.
  vm_compute in Hd. injection Hd as <-.
  vm_compute in Hb. injection Hb as <-.
  exact Hf.
Defined.

(** The loop keeps the remembered content from ever being blank. *)
Lemma scrape_pages_not_blank ctx pages vars w stop vars' w' :
  last_text_not_blank vars ->
  scrape_pages ctx pages vars w = (Val (stop, vars'), w') ->
  last_text_not_blank vars'.
Proof.
  revert vars w. induction pages as [|page pages IH]; intros vars w Hinv.
  - simpl. unfold ret. intros [= _ <- _]. exact Hinv.
  - cbn [scrape_pages]. unfold bind at 1.
    destruct (scrape_page_step ctx vars page w) as (c & vars1 & w1 & Hstep & _).
    rewrite Hstep. cbn [fst snd].
    assert (Hinv1 : last_text_not_blank vars1).
    { destruct (scrape_page_vars _ _ _ _ _ _ _ Hstep)
        as [-> | (resp & doc & b & _ & _ & _ & Ht & _ & -> & _)];
        [exact Hinv | exact Ht]. }
    destruct c as [|why].
    + apply IH. exact Hinv1.
    + unfold ret. intros [= _ <- _]. exact Hinv1.
Qed.

End MorePageFacts.

(** ** Images *)

Section MoreImageFacts.



Lemma after_last_sep_plain (s acc : pystr) :
  In OsPath.sep s \/ ~ In OsPath.sep acc ->
  ~ In OsPath.sep (OsPath.after_last_sep s acc).
Proof.
  revert acc. induction s as [|c s IH]; intros acc H; simpl.
  - destruct H as [[] | H]. exact H.
  - destruct (N.eqb_spec c OsPath.sep) as [-> | Hc].
    + apply IH. destruct (in_dec N.eq_dec OsPath.sep s); [left | right]; assumption.
    + apply IH. destruct H as [[E | H] | H];
        [congruence | left; exact H | right; exact H].
Qed.

Lemma after_last_sep_infix (s acc : pystr) :
  infix (OsPath.after_last_sep s acc) s \/ OsPath.after_last_sep s acc = acc.
Proof.
  revert acc. induction s as [|c s IH]; intros acc; simpl.
  - right. reflexivity.
  - destruct (c =? OsPath.sep)%N.
    + left. destruct (IH s) as [[a [b E]] | E].
      * exists (c :: a), b. simpl. rewrite <- E. reflexivity.
      * rewrite E. exists [c], []. simpl. rewrite app_nil_r. reflexivity.
    + destruct (IH acc) as [[a [b E]] | E]; [left | right; exact E].
      exists (c :: a), b. simpl. rewrite <- E. reflexivity.
Qed.

Lemma basename_infix (p : pystr) : infix (OsPath.basename p) p.
Proof.
  unfold OsPath.basename. destruct (after_last_sep_infix p p) as [H | ->];
    [exact H | apply infix_refl].
Qed.

Lemma contains_char c (s : pystr) : contains [c] s = false -> ~ In c s.
Proof.
  induction s as [|x s IH]; simpl; [tauto|].
  intros H. apply orb_false_iff in H as [Hx Hs].
  rewrite andb_true_r in Hx. apply N.eqb_neq in Hx.
  intros [E | Hin]; [congruence | exact (IH Hs Hin)].
Qed.

Lemma basename_of_url_plain (img_url : pystr) :
  ~ In 47%N (OsPath.basename (item0 (split (lit "?") img_url))) /\
  ~ In 63%N (OsPath.basename (item0 (split (lit "?") img_url))).
Proof.
  split.
  - unfold OsPath.basename. apply after_last_sep_plain.
    destruct (in_dec N.eq_dec OsPath.sep (item0 (split (lit "?") img_url)));
      [left | right]; assumption.
  - apply contains_char. eapply absent_infix; [|apply basename_infix].
    rewrite item0_split. apply absent_before. discriminate.
Qed.

(** The name under which an image is stored holds neither a slash nor
    a question mark, whatever the URL: the file lands in the
    destination folder itself, and the query string is not part of its
    name. *)
Theorem image_name_is_plain (img_url : pystr) :
  ~ In 47%N (OsPath.basename (item0 (split (lit "?") img_url))) /\
  ~ In 63%N (OsPath.basename (item0 (split (lit "?") img_url))).
Proof. exact (basename_of_url_plain img_url). Qed.

(** In a folder that is named and does not end with a slash, the image
    file is the folder, a slash, and that plain name. *)
Theorem image_path_in_folder (img_url dest : pystr) :
  dest <> [] ->
  startswith [OsPath.sep] (rev dest) = false ->
  image_path img_url dest
    = dest ++ OsPath.sep :: OsPath.basename (item0 (split (lit "?") img_url)).
Proof.
  intros Hd Hs. unfold image_path, OsPath.join.
  destruct (basename_of_url_plain img_url) as [Hplain _].
  assert (H1 : startswith [OsPath.sep]
                 (OsPath.basename (item0 (split (lit "?") img_url))) = false).
  { destruct (OsPath.basename _) as [|c f]; [reflexivity|].
    cbn [startswith].
    destruct (N.eqb_spec OsPath.sep c) as [E | Hc]; [|reflexivity].
    exfalso. apply Hplain. left. rewrite <- E. reflexivity. }
  rewrite H1, Hs. destruct dest; [congruence | reflexivity].
Qed.

Lemma image_path_in_folder_witness :
  image_path (lit "https://img.estar.jp/a/../b.png?x=/etc/passwd")
    (lit "Tale - 17/images")
  = lit "Tale - 17/images/b.png".
Proof.
  rewrite (image_path_in_folder
             (lit "https://img.estar.jp/a/../b.png?x=/etc/passwd")
             (lit "Tale - 17/images")); [reflexivity | discriminate | reflexivity].
Defined.

End MoreImageFacts.

(** ** The artifacts of a run *)

Section ArtifactFacts.

Lemma page_path_inj (folder : pystr) (p q : Z) :
  0 <= p -> 0 <= q ->
  page_path folder p = page_path folder q -> p = q.
Proof.
  intros Hp Hq. unfold page_path, OsPath.join.
  replace (startswith [OsPath.sep] (lit "page_" ++ format_03d p ++ lit ".txt"))
    with false by reflexivity.
  replace (startswith [OsPath.sep] (lit "page_" ++ format_03d q ++ lit ".txt"))
    with false by reflexivity.
  intros H.
  assert (E : format_03d p ++ lit ".txt" = format_03d q ++ lit ".txt").
  { destruct (negb (truthy folder) || startswith [OsPath.sep] (rev folder)).
    - apply (app_inv_head folder) in H.
      exact (app_inv_head (lit "page_") _ _ H).
    - apply (app_inv_head folder) in H. injection H as H. exact H. }
  apply app_inv_tail in E.
  pose proof (decimal_value_format_03d p Hp) as Rp.
  pose proof (decimal_value_format_03d q Hq) as Rq.
  rewrite E in Rp. rewrite Rp in Rq. injection Rq as Rq. lia.
Qed.

(** Two page numbers never share an artifact: the path of the artifact
    determines the page. *)
Theorem page_path_injective (folder : pystr) (p q : Z) :
  0 <= p -> 0 <= q ->
  page_path folder p = page_path folder q -> p = q.
Proof. exact (page_path_inj folder p q). Qed.

Lemma page_path_injective_witness :
  page_path (lit "Tale - 17") 1000 = lit "Tale - 17/page_1000.txt" /\
  (1000 : Z) = 1000.
Proof.
  split; [reflexivity|].
  apply (page_path_injective (lit "Tale - 17") 1000 1000); [lia | lia | reflexivity].
Defined.



End ArtifactFacts.

(** ** What a run touches *)

Section FrameFacts.

Context {A B : Type}.
Implicit Types P Q : pystr -> Prop.









End FrameFacts.

Section FramePrimitives.

Implicit Types P : pystr -> Prop.











End FramePrimitives.


Section FramePrograms.









End FramePrograms.

(** ** Folders and skipped pages *)

Section FolderFacts.

(** When the part before the loop succeeds, the folder of the story
    and its [images] folder exist, and the directories that existed
    before still do. *)
Theorem setup_creates_folders (sid : pystr) (w w1 : world) (ctx : context) :
  scrape_setup sid w = (Val ctx, w1) ->
  is_dir (w_fs w1) (folder_name ctx) = true /\
  is_dir (w_fs w1) (images_folder ctx) = true /\
  fs_dirs (w_fs w) ⊆ fs_dirs (w_fs w1).
Proof.
  unfold scrape_setup, get_total_pages, try_except, bind, print, requests_get,
    raise_for_status, BeautifulSoup, os_makedirs, ret, raise.
  simpl. intros H.
  repeat case_split H; try discriminate;
    injection H as <- <-; simpl; unfold is_dir; simpl;
    rewrite !bool_decide_eq_true; set_solver.
Qed.

Lemma setup_creates_folders_witness :
  is_dir (w_fs (snd (scrape_setup (lit "17") demo_world))) (lit "Tale - 17") = true /\
  is_dir (w_fs (snd (scrape_setup (lit "17") demo_world)))
    (lit "Tale - 17/images") = true /\
  fs_dirs (w_fs demo_world) ⊆ fs_dirs (w_fs (snd (scrape_setup (lit "17") demo_world))).
Proof.
  apply (setup_creates_folders (lit "17") demo_world
           (snd (scrape_setup (lit "17") demo_world)) demo_ctx).
  vm_compute. reflexivity.
Defined.

(** A page that cannot be parsed is skipped: the error is reported, no
    file changes, the variables stay, and the loop goes on with the
    next page. *)
Theorem unparsable_page_is_skipped (ctx : context) (vars : loop_vars) (page : Z)
    (rest : list Z) (w : world) (resp : response) :
  w_net w (w_clock w) (page_request ctx page) = Some resp ->
  resp_status_ok resp = true ->
  resp_html resp = None ->
  exists w1,
    scrape_pages ctx (page :: rest) vars w = scrape_pages ctx rest vars w1 /\
    w_fs w1 = w_fs w /\
    w_clock w1 = S (w_clock w) /\
    w_trace w1 =
      [EvPrint (MsgProcErr page); EvGet (page_request ctx page);
       EvPrint (MsgScraping page (total_pages ctx))] ++ w_trace w.
Proof.
  unfold page_request. intros Hn Hs Hh.
  cbn [scrape_pages]. unfold bind at 1. run_page.
  rewrite Hn. simpl. rewrite Hs. simpl. rewrite Hh. simpl.
  eexists. repeat split.
Qed.

Lemma unparsable_page_is_skipped_witness :
  exists w1,
    scrape_pages demo_ctx [2; 3] initial_vars garbled_world
      = scrape_pages demo_ctx [3] initial_vars w1 /\
    w_fs w1 = w_fs garbled_world /\
    w_clock w1 = S (w_clock garbled_world) /\
    w_trace w1 =
      [EvPrint (MsgProcErr 2); EvGet (page_request demo_ctx 2);
       EvPrint (MsgScraping 2 (total_pages demo_ctx))] ++ w_trace garbled_world.
Proof.
  apply (unparsable_page_is_skipped demo_ctx initial_vars 2 [3] garbled_world
           {| resp_status_ok := true; resp_html := None; resp_content := [] |});
    reflexivity.
Defined.

End FolderFacts.
